(** * Market-data import pipeline (backend/import_to_market_data.py)

    A shallow embedding of [process_csv_file] and [main] together with
    the properties of the ingestion pipeline: close-column selection,
    the drop law, volume rescaling, natural-key uniqueness, idempotence
    of reimports, reported statistics and fault containment.

    Conventions of the embedding:
    - a pandas DataFrame is a list of column names and a list of rows,
      a row being the list of its cells in column order; column names
      may repeat (a rename can create duplicates), and then indexing by
      that name yields several values, as pandas yields a Series;
    - Python floats are modelled by exact rationals ([Q]); rounding and
      the non-finite values are outside the model;
    - the data base table [market_data] is a list of rows;
    - what [print] writes is kept as a list of events. *)

From Stdlib Require Import List String Ascii Bool Arith ZArith QArith Qround Lia.
Import ListNotations.
Open Scope string_scope.
Open Scope list_scope.

(** ** Cells, frames and the pandas operations used by the importer *)

Inductive cell : Type :=
| CNaN : cell                    (* a missing value *)
| CNum : Q -> cell               (* a numeric value *)
| CStr : string -> cell.         (* a text value *)

Record DataFrame : Type := mkDataFrame {
  columns : list string;
  rows : list (list cell)
}.

Definition isna (c : cell) : bool :=
  match c with CNaN => true | _ => false end.

Definition contains (name : string) (cols : list string) : bool :=
  existsb (String.eqb name) cols.

(** [row[name]] against the header [cols]: every value stored under a
    column called [name]; a row shorter than the header is padded with
    missing values, as [read_csv] does. *)
Fixpoint getitem (cols : list string) (row : list cell) (name : string)
  : list cell :=
  match cols with
  | [] => []
  | c :: cs =>
      let rest := getitem cs (tl row) name in
      if String.eqb c name then hd CNaN row :: rest else rest
  end.

(** [df[names]]: the columns called by one of [names], in the order of
    [names]. *)
Definition select_header (names cols : list string) : list string :=
  flat_map (fun n => filter (fun c => String.eqb c n) cols) names.

Definition select_row (names cols : list string) (row : list cell)
  : list cell :=
  flat_map (getitem cols row) names.

Definition select (names : list string) (df : DataFrame) : DataFrame :=
  mkDataFrame (select_header names (columns df))
              (map (select_row names (columns df)) (rows df)).

(** [df.dropna()]: rows with a missing value in any column are removed. *)
Definition complete (row : list cell) : bool :=
  forallb (fun c => negb (isna c)) row.

Definition dropna (df : DataFrame) : DataFrame :=
  mkDataFrame (columns df) (filter complete (rows df)).

(** [df.rename(columns=mapping)]: names that are keys of the mapping are
    replaced, the others are kept. *)
Fixpoint lookup_name (mapping : list (string * string)) (c : string)
  : option string :=
  match mapping with
  | [] => None
  | (k, v) :: m => if String.eqb k c then Some v else lookup_name m c
  end.

Definition rename_column (mapping : list (string * string)) (c : string)
  : string :=
  match lookup_name mapping c with Some v => v | None => c end.

Definition rename (mapping : list (string * string)) (df : DataFrame)
  : DataFrame :=
  mkDataFrame (map (rename_column mapping) (columns df)) (rows df).

(** The byte-order mark U+FEFF, as its three UTF-8 bytes. *)
Definition BOM : string :=
  String "239"%char (String "187"%char (String "191"%char EmptyString)).

Definition startswith_bom (s : string) : bool := String.prefix BOM s.

(** [s.replace(BOM, '')]: every occurrence is removed, left to right. *)
Fixpoint replace_bom (s : string) : string :=
  match s with
  | String a (String b (String c rest as t2) as t1) =>
      if (Ascii.eqb a "239" && Ascii.eqb b "187" && Ascii.eqb c "191")%bool
      then replace_bom rest
      else String a (replace_bom t1)
  | String a t => String a (replace_bom t)
  | EmptyString => EmptyString
  end.

(** [s.upper()] on ASCII letters. *)
Definition upper_char (a : ascii) : ascii :=
  let n := nat_of_ascii a in
  if ((97 <=? n) && (n <=? 122))%nat then ascii_of_nat (n - 32) else a.

Fixpoint upper (s : string) : string :=
  match s with
  | EmptyString => EmptyString
  | String a t => String (upper_char a) (upper t)
  end.

(** ** The market_data table *)

Record market_data_row : Type := mkRow {
  Id : string;
  Symbol : cell;
  Timeframe : string;
  Timestamp : Z;
  Open : Q;
  High : Q;
  Low : Q;
  Close : Q;
  Volume : Q;
  AssetClass : string
}.

Definition table : Type := list market_data_row.

Definition cell_eqb (a b : cell) : bool :=
  match a, b with
  | CNaN, CNaN => true
  | CNum x, CNum y => Qeq_bool x y
  | CStr s, CStr t => String.eqb s t
  | _, _ => false
  end.

(** Two rows agree on the natural key ("Symbol", "Timeframe", "Timestamp"). *)
Definition same_key (a b : market_data_row) : bool :=
  cell_eqb (Symbol a) (Symbol b)
  && String.eqb (Timeframe a) (Timeframe b)
  && Z.eqb (Timestamp a) (Timestamp b).

Definition key_in (r : market_data_row) (t : table) : bool :=
  existsb (same_key r) t.

(** A psycopg2 connection: the committed table and the table as the open
    transaction sees it. *)
Record connection : Type := mkConn {
  committed : table;
  working : table
}.

Definition commit (c : connection) : connection :=
  mkConn (working c) (working c).

Definition rollback (c : connection) : connection :=
  mkConn (committed c) (committed c).

(** Lines 11-18, when the connection succeeds: a connection to the
    table [t] with nothing pending. *)
Definition get_db_connection (t : table) : connection := mkConn t t.

(** ** Files and what the run prints *)

Record FileSystem : Type := mkFS {
  path_exists : string -> bool;            (* os.path.exists *)
  glob : string -> list string;            (* glob.glob *)
  read_csv : string -> option DataFrame    (* pd.read_csv; None: it raises *)
}.

Inductive event : Type :=
| Processing (file_path : string)
| MissingColumns (file_path : string)
| DateParsingFailed (file_path : string)
| RowInsertFailed
| InsertedRecords (n : nat)
| ErrorProcessing (file_path : string)
| Banner
| MarketNotFound (market_path : string)
| ProcessingMarket (market : string) (n_files : nat)
| Skipping (market : string)
| ImportComplete (files records : nat).

Inductive outcome (A : Type) : Type :=
| Returned (a : A)
| Raised.
Arguments Returned {A} a.
Arguments Raised {A}.

(** The state the importer changes: the table and how many identifiers
    [uuid.uuid4] has handed out. *)
Record world : Type := mkWorld {
  store : table;
  uuids_drawn : nat
}.

Definition required_cols : list string :=
  ["Symbol"; "Date"; "Open"; "High"; "Low"; "Close"; "Volume"].

(** Lines 32-55: the format is decided by the symbol column and the
    source columns are given their canonical names. *)
Definition standardize (df : DataFrame) : DataFrame :=
  if contains "HisseKodu" (columns df) then
    let close_col :=
      if contains "DuzeltilmisKapanis" (columns df)
      then "DuzeltilmisKapanis" else "KapanisFiyati" in
    rename [("HisseKodu", "Symbol"); ("Tarih", "Date");
            ("AcilisFiyati", "Open"); ("EnYuksek", "High");
            ("EnDusuk", "Low"); (close_col, "Close");
            ("Hacim", "Volume")] df
  else if contains "HGDG_HS_KODU" (columns df) then
    rename [("HGDG_HS_KODU", "Symbol"); ("Tarih", "Date");
            ("AcilisFiyati", "Open"); ("EnYuksek", "High");
            ("EnDusuk", "Low"); ("DuzeltilmisKapanis", "Close");
            ("Hacim", "Volume")] df
  else df.

(** Lines 28-30: the byte-order mark is removed from the first name. The
    result is [None] when there is no first name ([df.columns[0]]
    raises). *)
Definition strip_bom (df : DataFrame) : option DataFrame :=
  match columns df with
  | [] => None
  | c0 :: cs =>
      Some (if startswith_bom c0
            then mkDataFrame (replace_bom c0 :: cs) (rows df)
            else df)
  end.

Definition has_required (df : DataFrame) : bool :=
  forallb (fun col => contains col (columns df)) required_cols.

(** Lines 85-88. *)
Definition scale_volume (volume : Q) : Q :=
  if Qlt_le_dec 99999999 volume then volume / 1000000 else volume.

Section Importer.

(** [float(s)] for a text value; [None] when it raises. *)
Variable py_float : string -> option Q.
(** [pd.to_datetime] on a column; [None] when it raises. *)
Variable to_datetime : list cell -> option (list Z).
(** The identifiers [uuid.uuid4] hands out, in order. *)
Variable uuid4 : nat -> string.
(** Whether [get_db_connection] succeeds. *)
Variable db_available : bool.
(** Modelled from the spec: the table definition is not in the sources;
    the store is a transactional insert over a table with a unique
    constraint on the natural key whose conflict behaviour is to ignore
    the row silently (Collaborator contract). [store_rejects] tells
    the rows the store refuses for any other reason (a value out of
    range for its column, for instance); the statement then raises. *)
Variable store_rejects : market_data_row -> bool.

(** Modelled from the spec: [INSERT ... ON CONFLICT ("Symbol",
    "Timeframe", "Timestamp") DO NOTHING] against the table described
    above; [None] when the statement raises. *)
Definition execute (c : connection) (r : market_data_row)
  : option connection :=
  if store_rejects r then None
  else if key_in r (working c) then Some c
  else Some (mkConn (committed c) (working c ++ [r])).

(** [float(v)] for what indexing a row yields: a number, a text, or,
    when the name is carried by several columns, a Series, for which
    [float] raises. A missing value cannot reach this point (line 63
    removed its row), and the non-finite float it would convert to is
    outside the rational model: [None]. *)
Definition to_float (v : list cell) : option Q :=
  match v with
  | [CNum q] => Some q
  | [CStr s] => py_float s
  | _ => None
  end.

(** A value handed to the data base driver: a Series cannot be
    adapted. *)
Definition scalar (v : list cell) : option cell :=
  match v with
  | [c] => Some c
  | _ => None
  end.

(** The frame after lines 63-76: the selected columns of a row, its
    identifier and its timestamp. *)
Record frame_row : Type := mkFrameRow {
  cells : list cell;
  row_id : string;
  row_timestamp : Z
}.

(** Lines 86-98: the values of one INSERT; [None] when a conversion
    raises. *)
Definition insert_values (cols : list string) (asset_class : string)
  (row : frame_row) : option market_data_row :=
  match to_float (getitem cols (cells row) "Volume"),
        scalar (getitem cols (cells row) "Symbol"),
        to_float (getitem cols (cells row) "Open"),
        to_float (getitem cols (cells row) "High"),
        to_float (getitem cols (cells row) "Low"),
        to_float (getitem cols (cells row) "Close") with
  | Some volume, Some symbol, Some o, Some h, Some l, Some c =>
      Some (mkRow (row_id row) symbol "DAILY" (row_timestamp row)
                  o h l c (scale_volume volume) asset_class)
  | _, _, _, _, _, _ => None
  end.

(** One turn of the loop of lines 83-104: the connection afterwards
    and whether the row was counted. *)
Definition insert_row (cols : list string) (asset_class : string)
  (c : connection) (row : frame_row) : connection * bool :=
  match insert_values cols asset_class row with
  | Some r =>
      match execute c r with
      | Some c' => (commit c', true)
      | None => (rollback c, false)
      end
  | None => (rollback c, false)
  end.

(** Lines 82-104. *)
Fixpoint insert_rows (cols : list string) (asset_class : string)
  (frame : list frame_row) (c : connection) (insert_count : nat)
  : nat * connection * list event :=
  match frame with
  | [] => (insert_count, c, [])
  | row :: frame' =>
      match insert_row cols asset_class c row with
      | (c', true) =>
          insert_rows cols asset_class frame' c' (S insert_count)
      | (c', false) =>
          let '(n, c'', out) :=
            insert_rows cols asset_class frame' c' insert_count in
          (n, c'', RowInsertFailed :: out)
      end
  end.

(** Lines 72-76: the columns added to the cleaned frame. *)
Definition add_fields (first_uuid : nat) (rws : list (list cell))
  (dates : list Z) : list frame_row :=
  map (fun x => mkFrameRow (fst (fst x)) (uuid4 (snd (fst x))) (snd x))
      (combine (combine rws (seq first_uuid (List.length rws))) dates).

(** [df[name]] as a column: a Series when exactly one column carries
    the name; with several, pandas yields a frame instead ([None]). *)
Definition series (df : DataFrame) (name : string) : option (list cell) :=
  if (List.length (filter (String.eqb name) (columns df)) =? 1)%nat
  then Some (map (fun row => hd CNaN (getitem (columns df) row name))
                 (rows df))
  else None.

(** The body of the outer [try] of [process_csv_file]. *)
Definition process_csv_file_try (fs : FileSystem)
  (file_path market_name : string) (w : world)
  : outcome nat * world * list event :=
  match read_csv fs file_path with
  | None => (Raised, w, [])
  | Some df =>
      match strip_bom df with
      | None => (Raised, w, [])
      | Some df =>
          let df := standardize df in
          if negb (has_required df)
          then (Returned 0%nat, w, [MissingColumns file_path])
          else
            let df := dropna (select required_cols df) in
            match (match series df "Date" with
                   | Some dates => to_datetime dates
                   | None => None
                   end) with
            | None => (Returned 0%nat, w, [DateParsingFailed file_path])
            | Some dates =>
                let frame := add_fields (uuids_drawn w) (rows df) dates in
                let drawn := (uuids_drawn w + List.length (rows df))%nat in
                if db_available then
                  let '(n, c, out) :=
                    insert_rows (columns df) (upper market_name) frame
                                (get_db_connection (store w)) 0 in
                  (Returned n, mkWorld (committed c) drawn,
                   out ++ [InsertedRecords n])
                else (Raised, mkWorld (store w) drawn, [])
            end
      end
  end.

(** Lines 20-114. *)
Definition process_csv_file (fs : FileSystem)
  (file_path market_name : string) (w : world)
  : nat * world * list event :=
  match process_csv_file_try fs file_path market_name w with
  | (Returned n, w', out) => (n, w', Processing file_path :: out)
  | (Raised, w', out) =>
      (0%nat, w', Processing file_path :: out ++ [ErrorProcessing file_path])
  end.

End Importer.

(** ** The coordinator *)

Definition base_path : string :=
  "/Users/mustafayildirim/Documents/Personal Documents/Projects/Stock_Scrapper/DATA".

Definition markets : list string := ["Crypto"; "BIST"; "NASDAQ"; "NYSE"].

(** [os.path.join] of a directory that does not end in a separator and
    a relative name. *)
Definition path_join (dir name : string) : string := dir ++ "/" ++ name.

Record totals : Type := mkTotals {
  total_files : nat;
  total_records : nat
}.

Section Coordinator.

Variable py_float : string -> option Q.
Variable to_datetime : list cell -> option (list Z).
Variable uuid4 : nat -> string.
Variable db_available : bool.
Variable store_rejects : market_data_row -> bool.
Variable fs : FileSystem.

Definition process_file := 
  process_csv_file py_float to_datetime uuid4 db_available store_rejects fs.

(** Lines 137-140: the loop over the files of one market. *)
Fixpoint process_files (files : list string) (market : string)
  (t : totals) (w : world) : totals * world * list event :=
  match files with
  | [] => (t, w, [])
  | file_path :: files' =>
      let '(records, w', out) := process_file file_path market w in
      let '(t', w'', out') :=
        process_files files' market
          (mkTotals (total_files t + 1) (total_records t + records)) w' in
      (t', w'', out ++ out')
  end.

(** Lines 126-144: the loop over the markets. *)
Fixpoint process_markets (ms : list string) (t : totals) (w : world)
  : totals * world * list event :=
  match ms with
  | [] => (t, w, [])
  | market :: ms' =>
      let market_path := path_join base_path market in
      if negb (path_exists fs market_path) then
        let '(t', w', out) := process_markets ms' t w in
        (t', w', MarketNotFound market_path :: out)
      else
        let csv_files := glob fs (path_join market_path "*.csv") in
        let header := ProcessingMarket market (List.length csv_files) in
        if String.eqb market "BIST" then
          let '(t1, w1, out1) :=
            process_files (firstn 3 csv_files) market t w in
          let '(t2, w2, out2) := process_markets ms' t1 w1 in
          (t2, w2, header :: out1 ++ out2)
        else
          let '(t', w', out) := process_markets ms' t w in
          (t', w', header :: Skipping market :: out)
  end.

(** Lines 116-148. *)
Definition main (w : world) : totals * world * list event :=
  let '(t, w', out) := process_markets markets (mkTotals 0 0) w in
  (t, w', Banner :: out
          ++ [ImportComplete (total_files t) (total_records t)]).

End Coordinator.

(** ** Vocabulary of the statements *)

(** No two rows of the table share the natural key. *)
Fixpoint unique_keys (t : table) : Prop :=
  match t with
  | [] => True
  | r :: t' => key_in r t' = false /\ unique_keys t'
  end.

(** The same row under another identifier. *)
Definition with_id (id : string) (r : market_data_row) : market_data_row :=
  mkRow id (Symbol r) (Timeframe r) (Timestamp r) (Open r) (High r) (Low r)
        (Close r) (Volume r) (AssetClass r).

(** The header after the byte-order mark is removed and the columns are
    renamed (lines 28-55). *)
Definition canonical_columns (df : DataFrame) : list string :=
  match strip_bom df with
  | Some df' => columns (standardize df')
  | None => columns df
  end.







(** The file system with one file replaced. *)
Definition with_file (fs : FileSystem) (file_path : string) (df : DataFrame)
  : FileSystem :=
  mkFS (path_exists fs) (glob fs)
       (fun p => if String.eqb p file_path then Some df else read_csv fs p).


(** The values of a row under the columns whose name satisfies [p]. *)
Fixpoint pick (p : string -> bool) (cols : list string) (row : list cell)
  : list cell :=
  match cols with
  | [] => []
  | c :: cs =>
      let rest := pick p cs (tl row) in
      if p c then hd CNaN row :: rest else rest
  end.

(** The files [main] hands to [process_csv_file]. *)
Definition imported (fs : FileSystem) : list string :=
  if path_exists fs (path_join base_path "BIST")
  then firstn 3 (glob fs (path_join (path_join base_path "BIST") "*.csv"))
  else [].

Section Vocabulary.

Variable py_float : string -> option Q.
Variable to_datetime : list cell -> option (list Z).
Variable uuid4 : nat -> string.
Variable db_available : bool.
Variable store_rejects : market_data_row -> bool.

(** What one turn of the loop does to a table with nothing pending,
    and whether the row is counted. *)
Definition persist (cols : list string) (asset_class : string)
  (t : table) (row : frame_row) : table * bool :=
  match insert_values py_float cols asset_class row with
  | Some r =>
      if store_rejects r then (t, false)
      else if key_in r t then (t, true)
      else (t ++ [r], true)
  | None => (t, false)
  end.

(** The table after the whole loop. *)
Fixpoint persist_all (cols : list string) (asset_class : string)
  (frame : list frame_row) (t : table) : table :=
  match frame with
  | [] => t
  | row :: frame' =>
      persist_all cols asset_class frame'
        (fst (persist cols asset_class t row))
  end.

(** How many rows the loop counts. *)
Fixpoint counted (cols : list string) (asset_class : string)
  (frame : list frame_row) (t : table) : nat :=
  match frame with
  | [] => 0
  | row :: frame' =>
      ((if snd (persist cols asset_class t row) then 1 else 0)
       + counted cols asset_class frame'
           (fst (persist cols asset_class t row)))%nat
  end.

(** A row is settled in a table when persisting it cannot add to the
    table: its values do not convert, the store refuses them, or its
    natural key is already there. *)
Definition settled (cols : list string) (asset_class : string)
  (t : table) (row : frame_row) : Prop :=
  match insert_values py_float cols asset_class row with
  | Some r => store_rejects r = true \/ key_in r t = true
  | None => True
  end.

(** What reaches the insert loop: the header and the rows of the
    cleaned frame with their parsed dates; [None] when the file is
    given up before the loop. *)
Definition prepared (fs : FileSystem) (file_path : string)
  : option (list string * list (list cell) * list Z) :=
  match read_csv fs file_path with
  | None => None
  | Some df =>
      match strip_bom df with
      | None => None
      | Some df =>
          let df := standardize df in
          if negb (has_required df) then None
          else
            let df := dropna (select required_cols df) in
            match (match series df "Date" with
                   | Some dates => to_datetime dates
                   | None => None
                   end) with
            | None => None
            | Some dates =>
                if db_available then Some (columns df, rows df, dates)
                else None
            end
      end
  end.

(** The state after a succession of import runs, each over the file
    system it finds. *)
Fixpoint import_runs (runs : list FileSystem) (w : world) : world :=
  match runs with
  | [] => w
  | fs :: runs' =>
      import_runs runs'
        (snd (fst (main py_float to_datetime uuid4 db_available
                     store_rejects fs w)))
  end.

(** A file is settled in a table when none of the rows it brings to
    the insert loop can add to the table. *)
Definition file_settled (fs : FileSystem) (market : string) (t : table)
  (file_path : string) : Prop :=
  match prepared fs file_path with
  | Some (cols, rws, dates) =>
      Forall (settled cols (upper market) t) (add_fields uuid4 0 rws dates)
  | None => True
  end.

(** A row of the frame is accepted when its values convert and the
    store does not refuse them. *)
Definition accepted (cols : list string) (asset_class : string)
  (row : frame_row) : bool :=
  match insert_values py_float cols asset_class row with
  | Some r => negb (store_rejects r)
  | None => false
  end.

(** Every identifier in the table is one of the first [n] that
    [uuid.uuid4] handed out. *)
Definition ids_below (n : nat) (t : table) : Prop :=
  forall r, In r t -> exists k, (k < n)%nat /\ Id r = uuid4 k.

(** The identifiers of the table are those drawn so far and no two rows
    share one. *)
Definition ids_distinct (w : world) : Prop :=
  ids_below (uuids_drawn w) (store w) /\ NoDup (map Id (store w)).

End Vocabulary.

(** ** A concrete run-time, for evaluating the importer *)

Module Demo.

Definition float_of_text (s : string) : option Q := None.

(** Dates given as day numbers are taken as they are; any text makes
    the column fail to parse. *)
Fixpoint days (col : list cell) : option (list Z) :=
  match col with
  | [] => Some []
  | CNum q :: col' =>
      match days col' with
      | Some l => Some (Qfloor q :: l)
      | None => None
      end
  | _ :: _ => None
  end.

Definition uuid (n : nat) : string :=
  String (ascii_of_nat (48 + n)) EmptyString.

Definition accepts_all (r : market_data_row) : bool := false.

(** The store refuses prices that do not fit numeric(18,8). *)
Definition rejects_large (r : market_data_row) : bool :=
  if Qlt_le_dec (Close r) 10000000000 then false else true.

Definition run_file :=
  process_csv_file float_of_text days uuid true accepts_all.

Definition fs_of (files : list (string * DataFrame)) : FileSystem :=
  mkFS (fun p => String.eqb p (path_join base_path "BIST"))
       (fun pat => if String.eqb pat (path_join (path_join base_path "BIST") "*.csv")
                   then map fst files else [])
       (fun p => match find (fun x => String.eqb (fst x) p) files with
                 | Some x => Some (snd x)
                 | None => None
                 end).

Definition empty : world := mkWorld [] 0.

Definition variant_a_header : list string :=
  ["HisseKodu"; "Tarih"; "AcilisFiyati"; "EnYuksek"; "EnDusuk";
   "KapanisFiyati"; "DuzeltilmisKapanis"; "Hacim"].

Definition bar (sym : string) (day o h l c adj v : Q) : list cell :=
  [CStr sym; CNum day; CNum o; CNum h; CNum l; CNum c; CNum adj; CNum v].

(** Three daily bars of one instrument. *)
Definition three_bars : DataFrame :=
  mkDataFrame variant_a_header
    [bar "AKBNK" 1 10 12 9 11 (11#2) 1000;
     bar "AKBNK" 2 11 13 10 12 6 2000;
     bar "AKBNK" 3 12 14 11 13 (13#2) 3000].


Definition bist_file : string :=
  path_join (path_join base_path "BIST") "AKBNK.csv".

Definition three_bars_fs : FileSystem := fs_of [(bist_file, three_bars)].

(** The row the first of the three bars becomes. *)
Definition first_bar_record : market_data_row :=
  mkRow "0" (CStr "AKBNK") "DAILY" 1 10 12 9 (11#2) 1000 "BIST".


(** The row the only bar of the file below becomes. *)
Definition raw_close_record : market_data_row :=
  mkRow "0" (CStr "AKBNK") "DAILY" 1 10 12 9 11 1000 "BIST".

(** A file with both symbol columns and a raw close only. *)
Definition both_symbols_file : DataFrame :=
  mkDataFrame ["HisseKodu"; "HGDG_HS_KODU"; "Tarih"; "AcilisFiyati";
               "EnYuksek"; "EnDusuk"; "KapanisFiyati"; "Hacim"]
    [[CStr "AKBNK"; CStr "AKBNK.E"; CNum 1; CNum 10; CNum 12; CNum 9;
      CNum 11; CNum 1000]].




Definition canonical_header : list string :=
  ["Symbol"; "Date"; "Open"; "High"; "Low"; "Close"; "Volume"].

Definition large_volume_row : frame_row :=
  mkFrameRow [CStr "AKBNK"; CNum 2; CNum 10; CNum 12; CNum 9; CNum (11#2);
              CNum 500000000] "0" 2.

Definition large_volume_record : market_data_row :=
  mkRow "0" (CStr "AKBNK") "DAILY" 2 10 12 9 (11#2)
        (500000000 / 1000000) "BIST".

End Demo.

(** ** Further sample values *)

Module Samples.

(** Identifiers that never repeat: the [n]-th is [n] strokes. *)
Fixpoint tally (n : nat) : string :=
  match n with
  | O => EmptyString
  | S k => String "|"%char (tally k)
  end.

(** The three bars with a byte-order mark before the first name. *)
Definition three_bars_bom : DataFrame :=
  mkDataFrame (String.append BOM "HisseKodu" :: tl Demo.variant_a_header)
              (rows Demo.three_bars).

(** A frame row whose key is that of [Demo.first_bar_record], with
    other prices. *)
Definition first_bar_revised : frame_row :=
  mkFrameRow [CStr "AKBNK"; CNum 1; CNum 20; CNum 22; CNum 19; CNum 21;
              CNum 1000] "9" 1.

(** A file with an adjusted close and a column already called Close. *)
Definition two_closes : DataFrame :=
  mkDataFrame ["HisseKodu"; "Tarih"; "AcilisFiyati"; "EnYuksek"; "EnDusuk";
               "DuzeltilmisKapanis"; "Close"; "Hacim"]
    [[CStr "AKBNK"; CNum 1; CNum 10; CNum 12; CNum 9; CNum 11; CNum 11;
      CNum 1000]].

End Samples.

(** The data rows of the files, as [read_csv] finds them. *)
Fixpoint rows_on_disk (fs : FileSystem) (files : list string) : nat :=
  match files with
  | [] => 0
  | f :: files' =>
      (match read_csv fs f with
       | Some df => List.length (rows df)
       | None => 0
       end + rows_on_disk fs files')%nat
  end.

(** ** Basic facts about the pandas operations *)


Lemma getitem_length_filter (cols : list string) (row : list cell)
  (n : string) :
  List.length (getitem cols row n)
  = List.length (filter (fun c => String.eqb c n) cols).
Proof.
  revert row; induction cols as [|c cs IH]; intros row; simpl;
    [reflexivity|].
  destruct (String.eqb c n); simpl; rewrite IH; reflexivity.
Qed.

Lemma getitem_app (a b : list string) (ra rb : list cell) (n : string) :
  List.length ra = List.length a ->
  getitem (a ++ b) (ra ++ rb) n = getitem a ra n ++ getitem b rb n.
Proof.
  revert ra; induction a as [|c a IH]; intros ra Hlen.
  - destruct ra; [reflexivity | discriminate].
  - destruct ra as [|x ra]; [discriminate|]. simpl in *.
    rewrite IH by lia. destruct (String.eqb c n); reflexivity.
Qed.

(** Indexing the columns called [m] by the name [n]. *)
Lemma getitem_filter (cols : list string) (row : list cell) (m n : string) :
  getitem (filter (fun c => String.eqb c m) cols) (getitem cols row m) n
  = if String.eqb m n then getitem cols row m else [].
Proof.
  revert row; induction cols as [|c cs IH]; intros row; simpl.
  - destruct (String.eqb m n); reflexivity.
  - destruct (String.eqb c m) eqn:E; simpl; rewrite IH; [|reflexivity].
    apply String.eqb_eq in E; subst c.
    destruct (String.eqb m n); reflexivity.
Qed.

(** Selecting columns does not change what indexing by a selected name
    yields. *)
Lemma getitem_select (names cols : list string) (row : list cell)
  (n : string) :
  NoDup names -> In n names ->
  getitem (select_header names cols) (select_row names cols row) n
  = getitem cols row n.
Proof.
  unfold select_header, select_row.
  induction names as [|m names IH]; intros Hnd Hin; [destruct Hin|].
  simpl. rewrite getitem_app by apply getitem_length_filter.
  rewrite getitem_filter. inversion Hnd as [|? ? Hnotin Hnd']; subst.
  destruct (String.eqb m n) eqn:E.
  - apply String.eqb_eq in E; subst m.
    assert (Hnil : forall l, ~ In n l ->
              getitem (flat_map (fun k => filter (fun c => String.eqb c k) cols) l)
                      (flat_map (getitem cols row) l) n = []).
    { induction l as [|k l IHl]; intros Hk; [reflexivity|]. simpl.
      rewrite getitem_app by apply getitem_length_filter.
      rewrite getitem_filter.
      destruct (String.eqb k n) eqn:Ek.
      - apply String.eqb_eq in Ek; subst k. exfalso; apply Hk; left; reflexivity.
      - simpl. apply IHl. intros H; apply Hk; right; exact H. }
    rewrite Hnil by assumption. apply app_nil_r.
  - simpl. apply IH; [assumption|].
    destruct Hin as [->|Hin]; [|assumption].
    rewrite String.eqb_refl in E; discriminate.
Qed.

Lemma required_cols_NoDup : NoDup required_cols.
Proof.
  unfold required_cols.
  repeat (constructor; [simpl; intuition discriminate|]). constructor.
Qed.

Lemma contains_In (n : string) (cols : list string) :
  contains n cols = true <-> In n cols.
Proof.
  unfold contains. rewrite existsb_exists. split.
  - intros [x [Hx E]]. apply String.eqb_eq in E; subst; assumption.
  - intros H. exists n. split; [assumption | apply String.eqb_refl].
Qed.

Example bom_removed : replace_bom (String.append BOM "HisseKodu") = "HisseKodu".
Proof. reflexivity. Qed.

Example bom_header_recognized :
  option_map (fun d => columns (standardize d))
    (strip_bom (mkDataFrame [String.append BOM "HisseKodu"; "Tarih";
                             "KapanisFiyati"] []))
  = Some ["Symbol"; "Date"; "Close"].
Proof. reflexivity. Qed.

Example upper_market : upper "Bist" = "BIST".
Proof. reflexivity. Qed.

(** ** The volume rescaling *)

Lemma scale_volume_large (v : Q) :
  99999999 < v -> scale_volume v = v / 1000000.
Proof.
  intros H. unfold scale_volume.
  destruct (Qlt_le_dec 99999999 v) as [_|Hle]; [reflexivity|].
  exfalso. exact (Qlt_not_le _ _ H Hle).
Qed.

Lemma scale_volume_small (v : Q) :
  v <= 99999999 -> scale_volume v = v.
Proof.
  intros H. unfold scale_volume.
  destruct (Qlt_le_dec 99999999 v) as [Hlt|_]; [|reflexivity].
  exfalso. exact (Qlt_not_le _ _ Hlt H).
Qed.

(** C4 (volume overflow law). For every row whose values reach the
    INSERT, the stored Volume is the raw volume divided by 1,000,000
    when the raw volume is strictly greater than 99,999,999, and the raw
    volume itself otherwise, the boundary 99,999,999 included. *)
Theorem volume_overflow_law (py_float : string -> option Q)
  (cols : list string) (asset_class : string) (row : frame_row)
  (r : market_data_row) :
  insert_values py_float cols asset_class row = Some r ->
  exists raw : Q,
    to_float py_float (getitem cols (cells row) "Volume") = Some raw
    /\ (99999999 < raw -> Volume r = raw / 1000000)
    /\ (raw <= 99999999 -> Volume r = raw)
    /\ (raw == 500000000 -> Volume r == 500)
    /\ (raw = 99999999 -> Volume r = 99999999).
Proof.
  unfold insert_values. intros H.
  destruct (to_float py_float (getitem cols (cells row) "Volume"))
    as [raw|]; [|discriminate].
  destruct (scalar _); [|discriminate].
  do 4 (destruct (to_float py_float _); [|discriminate]).
  injection H as <-. simpl. exists raw.
  split; [reflexivity|]. split; [apply scale_volume_large|].
  split; [apply scale_volume_small|]. split.
  - intros E. rewrite scale_volume_large by (rewrite E; reflexivity).
    rewrite E. reflexivity.
  - intros ->. reflexivity.
Qed.

Lemma volume_overflow_law_witness :
  exists raw : Q,
    to_float Demo.float_of_text
      (getitem Demo.canonical_header (cells Demo.large_volume_row) "Volume")
    = Some raw
    /\ (99999999 < raw -> Volume Demo.large_volume_record = raw / 1000000)
    /\ (raw <= 99999999 -> Volume Demo.large_volume_record = raw)
    /\ (raw == 500000000 -> Volume Demo.large_volume_record == 500)
    /\ (raw = 99999999 -> Volume Demo.large_volume_record = 99999999).
Proof.
  exact (volume_overflow_law Demo.float_of_text Demo.canonical_header "BIST"
           Demo.large_volume_row Demo.large_volume_record eq_refl).
Defined.

(** ** The coordinator only imports BIST *)

Section CoordinatorFacts.

Variable py_float : string -> option Q.
Variable to_datetime : list cell -> option (list Z).
Variable uuid4 : nat -> string.
Variable db_available : bool.
Variable store_rejects : market_data_row -> bool.
Variable fs : FileSystem.

Let files_of := process_files py_float to_datetime uuid4 db_available
                              store_rejects fs.
Let markets_of := process_markets py_float to_datetime uuid4 db_available
                                  store_rejects fs.

Lemma process_files_total_files (files : list string) (market : string)
  (t : totals) (w : world) :
  total_files (fst (fst (files_of files market t w)))
  = (total_files t + List.length files)%nat.
Proof.
  subst files_of. revert t w.
  induction files as [|f files IH]; intros t w; simpl; [lia|].
  destruct (process_file _ _ _ _ _ _ f market w) as [[records w'] out].
  specialize (IH (mkTotals (total_files t + 1) (total_records t + records)) w').
  destruct (process_files _ _ _ _ _ _ files market _ w') as [[t' w''] out'].
  simpl in *. lia.
Qed.

(** A market other than BIST changes neither the totals nor the
    world, whether its directory exists or not. *)
Lemma process_markets_skip (market : string) (ms : list string)
  (t : totals) (w : world) :
  String.eqb market "BIST" = false ->
  fst (markets_of (market :: ms) t w) = fst (markets_of ms t w).
Proof.
  subst markets_of. intros Hne. simpl. rewrite Hne.
  destruct (path_exists fs (path_join base_path market)); simpl;
    destruct (process_markets _ _ _ _ _ _ ms t w) as [[t' w'] out];
    reflexivity.
Qed.

End CoordinatorFacts.

(** C10 (coordinator restriction). In every run of [main] the totals and
    the resulting state are those of processing the first three CSV
    files of the BIST directory, or nothing when that directory is
    absent, whatever the Crypto, NASDAQ and NYSE directories hold; at
    most three files are handled. *)
Theorem main_only_bist_first_three
  (py_float : string -> option Q)
  (to_datetime : list cell -> option (list Z)) (uuid4 : nat -> string)
  (db_available : bool) (store_rejects : market_data_row -> bool)
  (fs : FileSystem) (w : world) :
  let bist := path_join base_path "BIST" in
  let run := main py_float to_datetime uuid4 db_available store_rejects fs w in
  let bist_only :=
    if path_exists fs bist
    then fst (process_files py_float to_datetime uuid4 db_available
                store_rejects fs
                (firstn 3 (glob fs (path_join bist "*.csv"))) "BIST"
                (mkTotals 0 0) w)
    else (mkTotals 0 0, w) in
  fst run = bist_only
  /\ (total_files (fst (fst run)) <= 3)%nat
  /\ (total_files (fst (fst run))
      <= List.length (glob fs (path_join bist "*.csv")))%nat.
Proof.
  intros bist run bist_only.
  assert (Hrun : fst run = bist_only).
  { subst run bist_only. unfold main.
    destruct (process_markets py_float to_datetime uuid4 db_available
                store_rejects fs markets (mkTotals 0 0) w)
      as [[t w'] out] eqn:E.
    simpl fst.
    change (t, w') with (fst (t, w', out)). rewrite <- E. clear E.
    unfold markets.
    rewrite process_markets_skip by reflexivity.
    change (process_markets py_float to_datetime uuid4 db_available
              store_rejects fs ["BIST"; "NASDAQ"; "NYSE"] (mkTotals 0 0) w)
      with
      (if negb (path_exists fs bist) then
         let '(t', w', out) :=
           process_markets py_float to_datetime uuid4 db_available
             store_rejects fs ["NASDAQ"; "NYSE"] (mkTotals 0 0) w in
         (t', w', MarketNotFound bist :: out)
       else
         let '(t1, w1, out1) :=
           process_files py_float to_datetime uuid4 db_available
             store_rejects fs
             (firstn 3 (glob fs (path_join bist "*.csv"))) "BIST"
             (mkTotals 0 0) w in
         let '(t2, w2, out2) :=
           process_markets py_float to_datetime uuid4 db_available
             store_rejects fs ["NASDAQ"; "NYSE"] t1 w1 in
         (t2, w2,
          ProcessingMarket "BIST"
            (List.length (glob fs (path_join bist "*.csv")))
          :: out1 ++ out2)).
    assert (Hrest : forall t0 w0,
              fst (process_markets py_float to_datetime uuid4 db_available
                     store_rejects fs ["NASDAQ"; "NYSE"] t0 w0) = (t0, w0)).
    { intros t0 w0. rewrite 2 process_markets_skip by reflexivity.
      reflexivity. }
    destruct (path_exists fs bist); simpl negb; cbv iota.
    - destruct (process_files _ _ _ _ _ _ _ "BIST" _ w) as [[t1 w1] out1].
      specialize (Hrest t1 w1).
      destruct (process_markets _ _ _ _ _ _ ["NASDAQ"; "NYSE"] t1 w1)
        as [[t2 w2] out2].
      simpl in *. exact Hrest.
    - specialize (Hrest (mkTotals 0 0) w).
      destruct (process_markets _ _ _ _ _ _ ["NASDAQ"; "NYSE"] _ w)
        as [[t2 w2] out2].
      simpl in *. exact Hrest. }
  rewrite Hrun. subst bist_only.
  destruct (path_exists fs bist).
  - rewrite process_files_total_files. simpl total_files.
    rewrite length_firstn. repeat split; lia.
  - simpl. repeat split; lia.
Qed.

(** ** The natural key *)

Lemma cell_eqb_refl (c : cell) : cell_eqb c c = true.
Proof.
  destruct c; simpl;
    [reflexivity | apply Qeq_bool_refl | apply String.eqb_refl].
Qed.

Lemma cell_eqb_sym (a b : cell) : cell_eqb a b = cell_eqb b a.
Proof.
  destruct a, b; simpl; try reflexivity;
    [apply Qeq_bool_comm | apply String.eqb_sym].
Qed.

Lemma same_key_sym (a b : market_data_row) : same_key a b = same_key b a.
Proof.
  unfold same_key.
  rewrite cell_eqb_sym, String.eqb_sym, Z.eqb_sym. reflexivity.
Qed.

Lemma same_key_refl (a : market_data_row) : same_key a a = true.
Proof.
  unfold same_key.
  rewrite cell_eqb_refl, String.eqb_refl, Z.eqb_refl. reflexivity.
Qed.

Lemma key_in_app (r : market_data_row) (t e : table) :
  key_in r (t ++ e) = key_in r t || key_in r e.
Proof. apply existsb_app. Qed.

Lemma unique_keys_snoc (t : table) (r : market_data_row) :
  unique_keys t -> key_in r t = false -> unique_keys (t ++ [r]).
Proof.
  induction t as [|a t IH]; simpl; intros Hu Hr.
  - split; [reflexivity | exact I].
  - destruct Hu as [Ha Hu]. apply orb_false_elim in Hr as [Hra Hrt].
    split; [|apply IH; assumption].
    rewrite key_in_app, Ha. simpl.
    rewrite same_key_sym, Hra. reflexivity.
Qed.

Lemma unique_keys_pairwise (t : table) :
  unique_keys t ->
  forall (i j : nat) (a b : market_data_row),
    i <> j -> nth_error t i = Some a -> nth_error t j = Some b ->
    same_key a b = false.
Proof.
  induction t as [|r t IH]; intros Hu i j a b Hij Hi Hj.
  - destruct i; discriminate.
  - destruct Hu as [Hr Hu]. unfold key_in in Hr.
    assert (Hall : forall x, In x t -> same_key r x = false).
    { intros x Hx. destruct (same_key r x) eqn:E; [|reflexivity].
      assert (existsb (same_key r) t = true)
        by (apply existsb_exists; exists x; split; assumption).
      congruence. }
    destruct i as [|i], j as [|j]; simpl in *.
    + exfalso; apply Hij; reflexivity.
    + injection Hi as <-. apply Hall. eapply nth_error_In; eassumption.
    + injection Hj as <-. rewrite same_key_sym. apply Hall.
      eapply nth_error_In; eassumption.
    + apply (IH Hu i j); [intros E; apply Hij; f_equal; exact E | | ];
        assumption.
Qed.

(** ** The insert loop, row by row *)

Section Loop.

Variable py_float : string -> option Q.
Variable store_rejects : market_data_row -> bool.
Variable cols : list string.
Variable asset_class : string.

Local Abbreviation values := (insert_values py_float cols asset_class).
Local Abbreviation turn := (insert_row py_float store_rejects cols asset_class).
Local Abbreviation loop := (insert_rows py_float store_rejects cols asset_class).
Local Abbreviation step := (persist py_float store_rejects cols asset_class).
Local Abbreviation steps :=
  (persist_all py_float store_rejects cols asset_class).
Local Abbreviation count := (counted py_float store_rejects cols asset_class).
Local Abbreviation stays := (settled py_float store_rejects cols asset_class).

Lemma insert_row_persist (t : table) (row : frame_row) :
  turn (get_db_connection t) row
  = (get_db_connection (fst (step t row)), snd (step t row)).
Proof.
  unfold insert_row, persist, execute.
  destruct (insert_values py_float cols asset_class row) as [r|];
    [|reflexivity].
  destruct (store_rejects r); [reflexivity|]. simpl.
  destruct (key_in r t); reflexivity.
Qed.

(** A row whose natural key is already in the table is counted although
    the table stays as it is. *)
Lemma conflict_is_counted (t : table) (row : frame_row)
  (r : market_data_row) :
  values row = Some r -> store_rejects r = false -> key_in r t = true ->
  turn (get_db_connection t) row = (get_db_connection t, true).
Proof.
  intros Hv Hrej Hkey. rewrite insert_row_persist. unfold persist.
  rewrite Hv, Hrej, Hkey. reflexivity.
Qed.

Lemma counted_le (frame : list frame_row) (t : table) :
  (count frame t <= List.length frame)%nat.
Proof.
  revert t; induction frame as [|x frame IH]; intros t; simpl; [lia|].
  specialize (IH (fst (step t x))).
  destruct (snd (step t x)); lia.
Qed.

Lemma insert_rows_persist (frame : list frame_row) (t : table) (n : nat) :
  loop frame (get_db_connection t) n
  = ((n + count frame t)%nat,
     get_db_connection (steps frame t),
     repeat RowInsertFailed (List.length frame - count frame t)).
Proof.
  revert t n.
  induction frame as [|row frame IH]; intros t n.
  - simpl. rewrite Nat.add_0_r. reflexivity.
  - cbn [insert_rows]. rewrite insert_row_persist.
    cbn [counted persist_all List.length].
    pose proof (counted_le frame (fst (step t row))) as Hc.
    remember (count frame (fst (step t row))) as k eqn:Hk.
    destruct (snd (step t row)); rewrite IH, <- Hk.
    + replace (n + (1 + k))%nat with (S n + k)%nat by lia.
      replace (S (List.length frame) - (1 + k))%nat
        with (List.length frame - k)%nat by lia.
      reflexivity.
    + replace (n + (0 + k))%nat with (n + k)%nat by lia.
      replace (S (List.length frame) - (0 + k))%nat
        with (S (List.length frame - k)) by lia.
      reflexivity.
Qed.

Lemma persist_extends (t : table) (row : frame_row) :
  fst (step t row) = t
  \/ exists r, values row = Some r /\ store_rejects r = false
               /\ key_in r t = false /\ fst (step t row) = t ++ [r].
Proof.
  unfold persist. destruct (values row) as [r|]; [|left; reflexivity].
  destruct (store_rejects r) eqn:Hrej; [left; reflexivity|].
  destruct (key_in r t) eqn:Hk; [left; reflexivity|].
  right. exists r. repeat split; assumption.
Qed.

Lemma persist_unique (t : table) (row : frame_row) :
  unique_keys t -> unique_keys (fst (step t row)).
Proof.
  intros Hu. destruct (persist_extends t row) as [->|[r [_ [_ [Hk ->]]]]];
    [assumption | apply unique_keys_snoc; assumption].
Qed.

Lemma persist_all_unique (frame : list frame_row) (t : table) :
  unique_keys t -> unique_keys (steps frame t).
Proof.
  revert t; induction frame as [|row frame IH]; intros t Hu; simpl;
    [assumption | apply IH, persist_unique, Hu].
Qed.

Lemma persist_all_extends (frame : list frame_row) (t : table) :
  exists extra, steps frame t = t ++ extra.
Proof.
  revert t; induction frame as [|row frame IH]; intros t; simpl.
  - exists []. symmetry; apply app_nil_r.
  - destruct (IH (fst (step t row))) as [e He]. rewrite He.
    destruct (persist_extends t row) as [->|[r [_ [_ [_ ->]]]]].
    + exists e; reflexivity.
    + exists (r :: e). rewrite <- app_assoc. reflexivity.
Qed.

Lemma settled_absorbs (t : table) (row : frame_row) :
  stays t row -> fst (step t row) = t.
Proof.
  unfold settled, persist. destruct (values row) as [r|]; [|reflexivity].
  intros [-> | Hk]; [reflexivity|].
  destruct (store_rejects r); [reflexivity|]. rewrite Hk. reflexivity.
Qed.

Lemma persist_settles (t : table) (row : frame_row) :
  stays (fst (step t row)) row.
Proof.
  unfold settled, persist. destruct (values row) as [r|]; [|exact I].
  destruct (store_rejects r) eqn:Hrej; [left; reflexivity|].
  destruct (key_in r t) eqn:Hk; simpl; right; [assumption|].
  rewrite key_in_app. simpl. rewrite same_key_refl.
  apply orb_true_r.
Qed.

Lemma settled_extends (t extra : table) (row : frame_row) :
  stays t row -> stays (t ++ extra) row.
Proof.
  unfold settled. destruct (values row) as [r|]; [|trivial].
  intros [H|H]; [left; assumption|]. right.
  rewrite key_in_app, H. reflexivity.
Qed.

Lemma persist_all_absorbs (frame : list frame_row) (t : table) :
  Forall (stays t) frame -> steps frame t = t.
Proof.
  induction 1 as [|row frame Hrow _ IH]; simpl; [reflexivity|].
  rewrite (settled_absorbs _ _ Hrow). exact IH.
Qed.

Lemma persist_all_settles (frame : list frame_row) (t : table) :
  Forall (stays (steps frame t)) frame.
Proof.
  revert t; induction frame as [|row frame IH]; intros t; simpl;
    constructor; [|apply IH].
  destruct (persist_all_extends frame (fst (step t row))) as [e ->].
  apply settled_extends, persist_settles.
Qed.

End Loop.

(** ** One file *)

Section OneFile.

Variable py_float : string -> option Q.
Variable to_datetime : list cell -> option (list Z).
Variable uuid4 : nat -> string.
Variable db_available : bool.
Variable store_rejects : market_data_row -> bool.
Variable fs : FileSystem.

Local Abbreviation run :=
  (process_csv_file py_float to_datetime uuid4 db_available store_rejects fs).

Lemma process_csv_file_store (file_path market : string) (w : world) :
  store (snd (fst (run file_path market w)))
  = match prepared to_datetime db_available fs file_path with
    | Some (cols, rws, dates) =>
        persist_all py_float store_rejects cols (upper market)
          (add_fields uuid4 (uuids_drawn w) rws dates) (store w)
    | None => store w
    end.
Proof.
  unfold process_csv_file, process_csv_file_try, prepared.
  destruct (read_csv fs file_path) as [df|]; [|reflexivity].
  destruct (strip_bom df) as [df'|]; [|reflexivity].
  destruct (negb (has_required (standardize df'))); [reflexivity|].
  destruct (match series _ "Date" with
            | Some dates => to_datetime dates | None => None end)
    as [dates|]; [|reflexivity].
  destruct db_available; [|reflexivity].
  rewrite insert_rows_persist. reflexivity.
Qed.

Lemma process_csv_file_count (file_path market : string) (w : world) :
  fst (fst (run file_path market w))
  = match prepared to_datetime db_available fs file_path with
    | Some (cols, rws, dates) =>
        counted py_float store_rejects cols (upper market)
          (add_fields uuid4 (uuids_drawn w) rws dates) (store w)
    | None => 0%nat
    end.
Proof.
  unfold process_csv_file, process_csv_file_try, prepared.
  destruct (read_csv fs file_path) as [df|]; [|reflexivity].
  destruct (strip_bom df) as [df'|]; [|reflexivity].
  destruct (negb (has_required (standardize df'))); [reflexivity|].
  destruct (match series _ "Date" with
            | Some dates => to_datetime dates | None => None end)
    as [dates|]; [|reflexivity].
  destruct db_available; [|reflexivity].
  rewrite insert_rows_persist. reflexivity.
Qed.

Lemma process_csv_file_unique (file_path market : string) (w : world) :
  unique_keys (store w) ->
  unique_keys (store (snd (fst (run file_path market w)))).
Proof.
  intros Hu. rewrite process_csv_file_store.
  destruct (prepared to_datetime db_available fs file_path) as [[[cols rws] dates]|];
    [apply persist_all_unique|]; assumption.
Qed.

Lemma process_csv_file_extends (file_path market : string) (w : world) :
  exists extra,
    store (snd (fst (run file_path market w))) = store w ++ extra.
Proof.
  rewrite process_csv_file_store.
  destruct (prepared to_datetime db_available fs file_path) as [[[cols rws] dates]|].
  - apply persist_all_extends.
  - exists []. symmetry; apply app_nil_r.
Qed.

End OneFile.

(** ** Whole runs *)

Section Runs.

Variable py_float : string -> option Q.
Variable to_datetime : list cell -> option (list Z).
Variable uuid4 : nat -> string.
Variable db_available : bool.
Variable store_rejects : market_data_row -> bool.

Local Abbreviation run_file fs :=
  (process_csv_file py_float to_datetime uuid4 db_available store_rejects fs).
Local Abbreviation run_files fs :=
  (process_files py_float to_datetime uuid4 db_available store_rejects fs).
Local Abbreviation run_markets fs :=
  (process_markets py_float to_datetime uuid4 db_available store_rejects fs).
Local Abbreviation run_main fs :=
  (main py_float to_datetime uuid4 db_available store_rejects fs).

Lemma process_files_step (fs : FileSystem) (f : string)
  (files : list string) (market : string) (t : totals) (w : world) :
  fst (run_files fs (f :: files) market t w)
  = fst (run_files fs files market
           (mkTotals (total_files t + 1)
                     (total_records t + fst (fst (run_file fs f market w))))
           (snd (fst (run_file fs f market w)))).
Proof.
  simpl. unfold process_file.
  destruct (run_file fs f market w) as [[records w'] out].
  cbn [fst snd].
  destruct (run_files fs files market _ w') as [[t' w''] out'].
  reflexivity.
Qed.

Lemma process_markets_step (fs : FileSystem) (market : string)
  (ms : list string) (t : totals) (w : world) :
  fst (run_markets fs (market :: ms) t w)
  = if negb (path_exists fs (path_join base_path market))
    then fst (run_markets fs ms t w)
    else if String.eqb market "BIST"
         then
           let r := fst (run_files fs
                           (firstn 3 (glob fs (path_join
                              (path_join base_path market) "*.csv")))
                           market t w) in
           fst (run_markets fs ms (fst r) (snd r))
         else fst (run_markets fs ms t w).
Proof.
  simpl.
  destruct (negb (path_exists fs (path_join base_path market))).
  - destruct (run_markets fs ms t w) as [[t' w'] out]. reflexivity.
  - destruct (String.eqb market "BIST").
    + destruct (run_files fs _ market t w) as [[t1 w1] out1].
      simpl. destruct (run_markets fs ms t1 w1) as [[t2 w2] out2].
      reflexivity.
    + destruct (run_markets fs ms t w) as [[t' w'] out]. reflexivity.
Qed.

Lemma main_fst (fs : FileSystem) (w : world) :
  fst (run_main fs w) = fst (run_markets fs markets (mkTotals 0 0) w).
Proof.
  unfold main.
  destruct (run_markets fs markets (mkTotals 0 0) w) as [[t w'] out].
  reflexivity.
Qed.

(** A property of the table that every file import preserves is
    preserved by whole runs. *)
Section Preserved.

Variable P : table -> Prop.
Hypothesis file_preserves :
  forall fs f market w,
    P (store w) -> P (store (snd (fst (run_file fs f market w)))).

Lemma process_files_preserves (fs : FileSystem) (files : list string)
  (market : string) (t : totals) (w : world) :
  P (store w) -> P (store (snd (fst (run_files fs files market t w)))).
Proof.
  revert t w; induction files as [|f files IH]; intros t w Hw;
    [exact Hw|].
  rewrite process_files_step. apply IH, file_preserves, Hw.
Qed.

Lemma process_markets_preserves (fs : FileSystem) (ms : list string)
  (t : totals) (w : world) :
  P (store w) -> P (store (snd (fst (run_markets fs ms t w)))).
Proof.
  revert t w; induction ms as [|m ms IH]; intros t w Hw; [exact Hw|].
  rewrite process_markets_step.
  destruct (negb (path_exists fs (path_join base_path m)));
    [apply IH, Hw|].
  destruct (String.eqb m "BIST"); [|apply IH, Hw].
  cbv zeta. apply IH, process_files_preserves, Hw.
Qed.

Lemma main_preserves (fs : FileSystem) (w : world) :
  P (store w) -> P (store (snd (fst (run_main fs w)))).
Proof.
  intros Hw. rewrite main_fst. apply process_markets_preserves, Hw.
Qed.

Lemma import_runs_preserves (runs : list FileSystem) (w : world) :
  P (store w) -> P (store (import_runs py_float to_datetime uuid4 db_available store_rejects runs w)).
Proof.
  revert w; induction runs as [|fs runs IH]; intros w Hw; [exact Hw|].
  simpl. apply IH, main_preserves, Hw.
Qed.

End Preserved.

Lemma import_runs_unique (runs : list FileSystem) (w : world) :
  unique_keys (store w) -> unique_keys (store (import_runs py_float to_datetime uuid4 db_available store_rejects runs w)).
Proof.
  apply import_runs_preserves. intros fs f market w0.
  apply process_csv_file_unique.
Qed.

End Runs.

(** C3 (key uniqueness). Starting from a table without duplicate natural
    keys (the empty table, for one), after any succession of import runs
    no two rows of the table share (Symbol, Timeframe, Timestamp); and
    every INSERT that succeeds either leaves the table as it was or adds
    one row whose key was not there. *)
Theorem natural_key_unique
  (py_float : string -> option Q)
  (to_datetime : list cell -> option (list Z)) (uuid4 : nat -> string)
  (db_available : bool) (store_rejects : market_data_row -> bool)
  (runs : list FileSystem) (w : world) :
  unique_keys (store w) ->
  (forall (i j : nat) (a b : market_data_row),
      i <> j ->
      nth_error (store (import_runs py_float to_datetime uuid4 db_available
                          store_rejects runs w)) i = Some a ->
      nth_error (store (import_runs py_float to_datetime uuid4 db_available
                          store_rejects runs w)) j = Some b ->
      same_key a b = false)
  /\ (forall (c c' : connection) (r : market_data_row),
         execute store_rejects c r = Some c' ->
         working c' = working c
         \/ (key_in r (working c) = false
             /\ working c' = working c ++ [r])).
Proof.
  intros Hu. split.
  - apply unique_keys_pairwise, import_runs_unique, Hu.
  - intros c c' r. unfold execute.
    destruct (store_rejects r); [discriminate|].
    destruct (key_in r (working c)) eqn:Hk; intros H; injection H as <-.
    + left; reflexivity.
    + right. split; reflexivity.
Qed.

(** ** Reimporting *)

Section Reimport.

Variable py_float : string -> option Q.
Variable to_datetime : list cell -> option (list Z).
Variable uuid4 : nat -> string.
Variable db_available : bool.
Variable store_rejects : market_data_row -> bool.

(** Whether the store refuses a row does not depend on the identifier
    drawn for it. *)
Hypothesis rejects_whatever_id :
  forall id r, store_rejects (with_id id r) = store_rejects r.

Local Abbreviation run_file fs :=
  (process_csv_file py_float to_datetime uuid4 db_available store_rejects fs).
Local Abbreviation run_files fs :=
  (process_files py_float to_datetime uuid4 db_available store_rejects fs).
Local Abbreviation run_main fs :=
  (main py_float to_datetime uuid4 db_available store_rejects fs).
Local Abbreviation is_settled :=
  (settled py_float store_rejects).
Local Abbreviation settled_file :=
  (file_settled py_float to_datetime uuid4 db_available store_rejects).

Lemma insert_values_id (cols : list string) (asset_class : string)
  (cs : list cell) (id id' : string) (ts : Z) :
  insert_values py_float cols asset_class (mkFrameRow cs id' ts)
  = option_map (with_id id')
      (insert_values py_float cols asset_class (mkFrameRow cs id ts)).
Proof.
  unfold insert_values. simpl.
  destruct (to_float py_float (getitem cols cs "Volume")); [|reflexivity].
  destruct (scalar (getitem cols cs "Symbol")); [|reflexivity].
  do 4 (destruct (to_float py_float _); [|reflexivity]).
  reflexivity.
Qed.

Lemma settled_id (cols : list string) (asset_class : string) (t : table)
  (cs : list cell) (id id' : string) (ts : Z) :
  is_settled cols asset_class t (mkFrameRow cs id ts) ->
  is_settled cols asset_class t (mkFrameRow cs id' ts).
Proof.
  unfold settled. rewrite (insert_values_id cols asset_class cs id id').
  destruct (insert_values py_float cols asset_class (mkFrameRow cs id ts))
    as [r|]; simpl; [|trivial].
  rewrite rejects_whatever_id. intros H; exact H.
Qed.

Lemma add_fields_cons (n : nat) (r : list cell) (rws : list (list cell))
  (d : Z) (dates : list Z) :
  add_fields uuid4 n (r :: rws) (d :: dates)
  = mkFrameRow r (uuid4 n) d :: add_fields uuid4 (S n) rws dates.
Proof. reflexivity. Qed.

Lemma add_fields_settled (cols : list string) (asset_class : string)
  (t : table) (rws : list (list cell)) (dates : list Z) (n m : nat) :
  Forall (is_settled cols asset_class t) (add_fields uuid4 n rws dates) ->
  Forall (is_settled cols asset_class t) (add_fields uuid4 m rws dates).
Proof.
  revert dates n m. induction rws as [|r rws IH]; intros dates n m H.
  - constructor.
  - destruct dates as [|d dates]; [constructor|].
    rewrite add_fields_cons in *. inversion H as [|? ? Hr Hrest]; subst.
    constructor; [eapply settled_id; exact Hr | eapply IH; exact Hrest].
Qed.

Lemma file_absorbs (fs : FileSystem) (market f : string) (w : world) :
  settled_file fs market (store w) f ->
  store (snd (fst (run_file fs f market w))) = store w.
Proof.
  unfold file_settled. rewrite process_csv_file_store.
  destruct (prepared to_datetime db_available fs f)
    as [[[cols rws] dates]|]; [|reflexivity].
  intros H. apply persist_all_absorbs.
  eapply add_fields_settled; exact H.
Qed.

Lemma file_settles (fs : FileSystem) (market f : string) (w : world) :
  settled_file fs market (store (snd (fst (run_file fs f market w)))) f.
Proof.
  unfold file_settled. rewrite process_csv_file_store.
  destruct (prepared to_datetime db_available fs f)
    as [[[cols rws] dates]|]; [|exact I].
  eapply add_fields_settled. apply persist_all_settles.
Qed.

Lemma file_settled_extends (fs : FileSystem) (market f : string)
  (t extra : table) :
  settled_file fs market t f -> settled_file fs market (t ++ extra) f.
Proof.
  unfold file_settled.
  destruct (prepared to_datetime db_available fs f)
    as [[[cols rws] dates]|]; [|trivial].
  apply Forall_impl. intros row. apply settled_extends.
Qed.

Lemma process_files_extends (fs : FileSystem) (files : list string)
  (market : string) (t : totals) (w : world) :
  exists extra,
    store (snd (fst (run_files fs files market t w))) = store w ++ extra.
Proof.
  apply (process_files_preserves py_float to_datetime uuid4 db_available
           store_rejects (fun tb => exists extra, tb = store w ++ extra)).
  - intros fs0 f m w0 [e He].
    destruct (process_csv_file_extends py_float to_datetime uuid4
                db_available store_rejects fs0 f m w0) as [e' He'].
    exists (e ++ e'). rewrite He', He, app_assoc. reflexivity.
  - exists []. symmetry; apply app_nil_r.
Qed.

Lemma process_files_settles (fs : FileSystem) (files : list string)
  (market : string) (t : totals) (w : world) :
  Forall (settled_file fs market
            (store (snd (fst (run_files fs files market t w))))) files.
Proof.
  revert t w; induction files as [|f files IH]; intros t w;
    [constructor|].
  rewrite process_files_step. constructor; [|apply IH].
  destruct (process_files_extends fs files market
              (mkTotals (total_files t + 1)
                 (total_records t + fst (fst (run_file fs f market w))))
              (snd (fst (run_file fs f market w)))) as [e ->].
  apply file_settled_extends, file_settles.
Qed.

Lemma process_files_absorbs (fs : FileSystem) (files : list string)
  (market : string) (t : totals) (w : world) :
  Forall (settled_file fs market (store w)) files ->
  store (snd (fst (run_files fs files market t w))) = store w.
Proof.
  revert t w; induction files as [|f files IH]; intros t w H;
    [reflexivity|].
  inversion H as [|? ? Hf Hfiles]; subst.
  rewrite process_files_step.
  pose proof (file_absorbs fs market f w Hf) as Hw.
  rewrite IH; [exact Hw | rewrite Hw; exact Hfiles].
Qed.

Lemma main_store (fs : FileSystem) (w : world) :
  store (snd (fst (run_main fs w)))
  = store (snd (fst (run_files fs (imported fs) "BIST" (mkTotals 0 0) w))).
Proof.
  rewrite main_fst. unfold markets, imported.
  rewrite process_markets_step. simpl String.eqb.
  assert (Hrest : forall t0 w0,
            fst (process_markets py_float to_datetime uuid4 db_available
                   store_rejects fs ["NASDAQ"; "NYSE"] t0 w0) = (t0, w0)).
  { intros t0 w0. rewrite 2 process_markets_skip by reflexivity.
    reflexivity. }
  replace (if negb (path_exists fs (path_join base_path "Crypto"))
           then _ else _)
    with (fst (process_markets py_float to_datetime uuid4 db_available
                 store_rejects fs ["BIST"; "NASDAQ"; "NYSE"]
                 (mkTotals 0 0) w))
    by (destruct (path_exists fs (path_join base_path "Crypto"));
        reflexivity).
  rewrite process_markets_step. simpl String.eqb.
  destruct (path_exists fs (path_join base_path "BIST")); simpl negb;
    cbv iota zeta; rewrite Hrest; [|reflexivity].
  destruct (process_files _ _ _ _ _ fs _ "BIST" _ w) as [[t1 w1] out1].
  reflexivity.
Qed.

Lemma main_idempotent (fs : FileSystem) (w : world) :
  store (snd (fst (run_main fs (snd (fst (run_main fs w))))))
  = store (snd (fst (run_main fs w))).
Proof.
  rewrite main_store. apply process_files_absorbs.
  rewrite main_store. apply process_files_settles.
Qed.

Lemma file_idempotent (fs : FileSystem) (f market : string) (w : world) :
  store (snd (fst (run_file fs f market
                     (snd (fst (run_file fs f market w))))))
  = store (snd (fst (run_file fs f market w))).
Proof. apply file_absorbs, file_settles. Qed.

End Reimport.

Lemma natural_key_unique_witness :
  (forall (i j : nat) (a b : market_data_row),
      i <> j ->
      nth_error (store (import_runs Demo.float_of_text Demo.days Demo.uuid
                          true Demo.rejects_large
                          [Demo.three_bars_fs; Demo.three_bars_fs]
                          Demo.empty)) i = Some a ->
      nth_error (store (import_runs Demo.float_of_text Demo.days Demo.uuid
                          true Demo.rejects_large
                          [Demo.three_bars_fs; Demo.three_bars_fs]
                          Demo.empty)) j = Some b ->
      same_key a b = false)
  /\ (forall (c c' : connection) (r : market_data_row),
         execute Demo.rejects_large c r = Some c' ->
         working c' = working c
         \/ (key_in r (working c) = false
             /\ working c' = working c ++ [r])).
Proof.
  exact (natural_key_unique Demo.float_of_text Demo.days Demo.uuid true
           Demo.rejects_large [Demo.three_bars_fs; Demo.three_bars_fs]
           Demo.empty I).
Defined.

(** C2 (idempotence). Provided the store's refusal of a row does not
    depend on the identifier drawn for it, running the import a second
    time leaves the table exactly as the first run left it, so with the
    same number of rows; and replaying one file after it was processed
    adds no row. *)
Theorem import_idempotent
  (py_float : string -> option Q)
  (to_datetime : list cell -> option (list Z)) (uuid4 : nat -> string)
  (db_available : bool) (store_rejects : market_data_row -> bool)
  (fs : FileSystem) (w : world) :
  (forall id r, store_rejects (with_id id r) = store_rejects r) ->
  let run := main py_float to_datetime uuid4 db_available store_rejects fs in
  let file := process_csv_file py_float to_datetime uuid4 db_available
                store_rejects fs in
  let once := snd (fst (run w)) in
  let twice := snd (fst (run once)) in
  store twice = store once
  /\ List.length (store twice) = List.length (store once)
  /\ (forall file_path market : string,
         let first := snd (fst (file file_path market w)) in
         store (snd (fst (file file_path market first))) = store first).
Proof.
  intros Hid run file once twice.
  assert (H : store twice = store once)
    by (apply main_idempotent; exact Hid).
  split; [exact H|]. split; [rewrite H; reflexivity|].
  intros file_path market first. apply file_idempotent; exact Hid.
Qed.

Lemma import_idempotent_witness :
  let run := main Demo.float_of_text Demo.days Demo.uuid true
               Demo.rejects_large Demo.three_bars_fs in
  let file := process_csv_file Demo.float_of_text Demo.days Demo.uuid true
                Demo.rejects_large Demo.three_bars_fs in
  let once := snd (fst (run Demo.empty)) in
  let twice := snd (fst (run once)) in
  store twice = store once
  /\ List.length (store twice) = List.length (store once)
  /\ (forall file_path market : string,
         let first := snd (fst (file file_path market Demo.empty)) in
         store (snd (fst (file file_path market first))) = store first).
Proof.
  exact (import_idempotent Demo.float_of_text Demo.days Demo.uuid true
           Demo.rejects_large Demo.three_bars_fs Demo.empty
           (fun id r => eq_refl)).
Defined.

(** C1 (statistics accuracy), evaluated on a reimport. The first import
    of a three-row file into an empty table returns 3 and stores three
    rows; importing the same file again stores nothing new, every row
    meeting its own natural key, and yet the call returns 3 again and
    reports no failed row. *)
Theorem reimport_counts_conflicts :
  let file := process_csv_file Demo.float_of_text Demo.days Demo.uuid true
                Demo.accepts_all Demo.three_bars_fs Demo.bist_file "BIST" in
  let first := file Demo.empty in
  let again := file (snd (fst first)) in
  fst (fst first) = 3%nat
  /\ List.length (store (snd (fst first))) = 3%nat
  /\ store (snd (fst again)) = store (snd (fst first))
  /\ fst (fst again) = 3%nat
  /\ snd again = [Processing Demo.bist_file; InsertedRecords 3].
Proof. vm_compute. repeat split; reflexivity. Qed.

(** ** Rows without a required field *)




Lemma strip_bom_rows (df d : DataFrame) :
  strip_bom df = Some d -> rows d = rows df.
Proof.
  unfold strip_bom. destruct (columns df) as [|c0 cs]; [discriminate|].
  destruct (startswith_bom c0); intros H; injection H as <-; reflexivity.
Qed.


Lemma standardize_rows (df : DataFrame) : rows (standardize df) = rows df.
Proof.
  unfold standardize, rename.
  destruct (contains "HisseKodu" (columns df)); [reflexivity|].
  destruct (contains "HGDG_HS_KODU" (columns df)); reflexivity.
Qed.





(** ** Headers that match no variant *)






(** ** Nothing is fatal *)




(** ** Which column supplies Close *)

Lemma getitem_pick (cols : list string) (row : list cell) (n : string) :
  getitem cols row n = pick (fun c => String.eqb c n) cols row.
Proof.
  revert row; induction cols as [|c cs IH]; intros row; simpl;
    [reflexivity | rewrite IH; reflexivity].
Qed.

Lemma getitem_map_pick (f : string -> string) (cols : list string)
  (row : list cell) (n : string) :
  getitem (map f cols) row n = pick (fun c => String.eqb (f c) n) cols row.
Proof.
  revert row; induction cols as [|c cs IH]; intros row; simpl;
    [reflexivity | rewrite IH; reflexivity].
Qed.

Lemma pick_nil_incl (p q : string -> bool) (cols : list string)
  (row : list cell) :
  (forall c, p c = true -> q c = true) ->
  pick q cols row = [] -> pick p cols row = [].
Proof.
  intros Hpq. revert row; induction cols as [|c cs IH]; intros row; simpl;
    [reflexivity|].
  destruct (q c) eqn:Hq; [discriminate|].
  destruct (p c) eqn:Hp; [rewrite (Hpq c Hp) in Hq; discriminate|].
  apply IH.
Qed.

Lemma pick_nil_none (q : string -> bool) (cols : list string)
  (row : list cell) (c : string) :
  In c cols -> q c = true -> pick q cols row <> [].
Proof.
  revert row; induction cols as [|x cs IH]; intros row Hin Hq; simpl;
    [destruct Hin|].
  destruct (q x) eqn:Hx; [discriminate|].
  destruct Hin as [->|Hin]; [congruence | apply IH; assumption].
Qed.

(** When the columns satisfying [q] hold a single value and one of them
    satisfies the stronger [p], that value is under the [p] column. *)
Lemma pick_single (p q : string -> bool) (cols : list string)
  (row : list cell) (v : cell) (c : string) :
  (forall x, p x = true -> q x = true) ->
  In c cols -> p c = true ->
  pick q cols row = [v] -> pick p cols row = [v].
Proof.
  intros Hpq. revert row; induction cols as [|x cs IH]; intros row Hin Hp;
    [destruct Hin|].
  simpl. destruct (q x) eqn:Hqx.
  - intros H. injection H as Hv Hrest.
    destruct (p x) eqn:Hpx.
    + rewrite (pick_nil_incl p q cs (tl row) Hpq Hrest), Hv. reflexivity.
    + destruct Hin as [->|Hin]; [congruence|].
      exfalso. exact (pick_nil_none q cs (tl row) c Hin (Hpq c Hp) Hrest).
  - destruct (p x) eqn:Hpx; [rewrite (Hpq x Hpx) in Hqx; discriminate|].
    destruct Hin as [->|Hin]; [congruence|]. apply IH; assumption.
Qed.

Lemma to_float_single (py_float : string -> option Q) (v : list cell)
  (q : Q) :
  to_float py_float v = Some q -> exists c, v = [c].
Proof.
  destruct v as [|c [|c' v]]; simpl; try discriminate.
  - intros _. exists c; reflexivity.
  - destruct c; discriminate.
Qed.



Lemma persist_all_origin (py_float : string -> option Q)
  (store_rejects : market_data_row -> bool) (cols : list string)
  (asset_class : string) (frame : list frame_row) (t : table)
  (r : market_data_row) :
  In r (persist_all py_float store_rejects cols asset_class frame t) ->
  In r t
  \/ exists fr, In fr frame
                /\ insert_values py_float cols asset_class fr = Some r.
Proof.
  revert t; induction frame as [|row frame IH]; intros t H; simpl in H;
    [left; exact H|].
  destruct (IH _ H) as [Hin | [fr [Hfr Hv]]].
  - destruct (persist_extends py_float store_rejects cols asset_class t row)
      as [E | [r0 [Hv0 [_ [_ E]]]]]; rewrite E in Hin.
    + left; exact Hin.
    + apply in_app_or in Hin as [Hin | [<- | []]]; [left; exact Hin|].
      right. exists row. split; [left; reflexivity | exact Hv0].
  - right. exists fr. split; [right; exact Hfr | exact Hv].
Qed.

Lemma add_fields_cells (uuid4 : nat -> string) (n : nat)
  (rws : list (list cell)) (dates : list Z) (fr : frame_row) :
  In fr (add_fields uuid4 n rws dates) -> In (cells fr) rws.
Proof.
  revert n dates; induction rws as [|x rws IH]; intros n dates H.
  - destruct H.
  - destruct dates as [|d dates]; [destruct H|].
    rewrite add_fields_cons in H. destruct H as [<- | H].
    + left; reflexivity.
    + right. eapply IH; exact H.
Qed.

(** Every row a file import adds to the table was built from a row of
    the file. *)
Lemma stored_origin (py_float : string -> option Q)
  (to_datetime : list cell -> option (list Z)) (uuid4 : nat -> string)
  (db_available : bool) (store_rejects : market_data_row -> bool)
  (fs : FileSystem) (file_path market : string) (w : world)
  (df d : DataFrame) (r : market_data_row) :
  read_csv fs file_path = Some df ->
  strip_bom df = Some d ->
  In r (store (snd (fst (process_csv_file py_float to_datetime uuid4
                           db_available store_rejects fs file_path market
                           w)))) ->
  In r (store w)
  \/ exists row fr,
       In row (rows df)
       /\ cells fr = select_row required_cols (columns (standardize d)) row
       /\ insert_values py_float
            (select_header required_cols (columns (standardize d)))
            (upper market) fr = Some r.
Proof.
  intros Hread Hs. rewrite process_csv_file_store. unfold prepared.
  rewrite Hread, Hs.
  destruct (negb (has_required (standardize d))); [left; assumption|].
  destruct (match series _ "Date" with
            | Some dates => to_datetime dates | None => None end)
    as [dates|]; [|left; assumption].
  destruct db_available; [|left; assumption].
  intros H. apply persist_all_origin in H as [H | [fr [Hfr Hv]]];
    [left; exact H|].
  right. apply add_fields_cells in Hfr. cbn [dropna select rows] in Hfr.
  apply filter_In in Hfr as [Hfr _]. apply in_map_iff in Hfr as [row [E Hrow]].
  exists row, fr. rewrite standardize_rows, (strip_bom_rows df d Hs) in Hrow.
  split; [exact Hrow|]. split; [symmetry; exact E | exact Hv].
Qed.






(** The row stored for that file: its Close is the raw close of the
    only bar, and the header has no adjusted close. *)
Example both_symbols_stores_raw_close :
  let r := process_csv_file Demo.float_of_text Demo.days Demo.uuid true
             Demo.accepts_all
             (Demo.fs_of [(Demo.bist_file, Demo.both_symbols_file)])
             Demo.bist_file "BIST" Demo.empty in
  store (snd (fst r)) = [Demo.raw_close_record]
  /\ map (fun row => to_float Demo.float_of_text
                       (getitem (columns Demo.both_symbols_file) row
                                "KapanisFiyati"))
         (rows Demo.both_symbols_file)
     = [Some (Close Demo.raw_close_record)]
  /\ contains "DuzeltilmisKapanis" (columns Demo.both_symbols_file) = false.
Proof. vm_compute. repeat split; reflexivity. Qed.

(** ** Further properties of the insert loop *)

Section LoopAccounting.

Variable py_float : string -> option Q.
Variable store_rejects : market_data_row -> bool.
Variable cols : list string.
Variable asset_class : string.

Local Abbreviation turn := (insert_row py_float store_rejects cols asset_class).
Local Abbreviation loop := (insert_rows py_float store_rejects cols asset_class).

Lemma insert_row_settled (c : connection) (row : frame_row) :
  committed (fst (turn c row)) = working (fst (turn c row)).
Proof.
  unfold insert_row.
  destruct (insert_values py_float cols asset_class row) as [r|];
    [|reflexivity].
  destruct (execute store_rejects c r); reflexivity.
Qed.


(** Lines 83-104: the loop over two batches of rows is the loop over
    the first followed by the loop over the second, started from the
    connection and the count the first one left. *)
Theorem insert_rows_app (f1 f2 : list frame_row) (c : connection) (n : nat) :
  loop (f1 ++ f2) c n
  = (let '(n1, c1, out1) := loop f1 c n in
     let '(n2, c2, out2) := loop f2 c1 n1 in
     (n2, c2, out1 ++ out2)).
Proof.
  revert c n. induction f1 as [|row f1 IH]; intros c n.
  - simpl. destruct (loop f2 c n) as [[n2 c2] out2]. reflexivity.
  - cbn [app insert_rows]. destruct (turn c row) as [c1 [|]].
    + apply IH.
    + rewrite IH. destruct (loop f1 c1 n) as [[n1 c1'] out1].
      destruct (loop f2 c1' n1) as [[n2 c2] out2]. reflexivity.
Qed.

(** Lines 99 and 103: once the loop has gone through at least one row,
    nothing is pending on the connection: each row was committed or
    rolled back on its own. *)
Theorem insert_rows_nothing_pending (frame : list frame_row)
  (c : connection) (n : nat) :
  frame <> [] ->
  committed (snd (fst (loop frame c n)))
  = working (snd (fst (loop frame c n))).
Proof.
  revert c n. induction frame as [|row frame IH]; intros c n Hne;
    [contradiction|].
  cbn [insert_rows]. pose proof (insert_row_settled c row) as Hc.
  destruct (turn c row) as [c1 b]. simpl in Hc.
  destruct frame as [|row' frame].
  - destruct b; simpl; exact Hc.
  - assert (Hne' : row' :: frame <> []) by discriminate.
    destruct b.
    + apply IH; exact Hne'.
    + specialize (IH c1 n Hne').
      destruct (loop (row' :: frame) c1 n) as [[n' c'] out]. exact IH.
Qed.

End LoopAccounting.

Lemma insert_rows_nothing_pending_witness :
  committed (snd (fst (insert_rows Demo.float_of_text Demo.accepts_all
                         Demo.canonical_header "BIST"
                         [Demo.large_volume_row]
                         (mkConn [] [Demo.first_bar_record]) 0)))
  = working (snd (fst (insert_rows Demo.float_of_text Demo.accepts_all
                         Demo.canonical_header "BIST"
                         [Demo.large_volume_row]
                         (mkConn [] [Demo.first_bar_record]) 0))).
Proof.
  apply (insert_rows_nothing_pending Demo.float_of_text Demo.accepts_all
           Demo.canonical_header "BIST" [Demo.large_volume_row]
           (mkConn [] [Demo.first_bar_record]) 0%nat).
  discriminate.
Defined.

(** ** What a file import returns and adds *)

Section FileResults.

Variable py_float : string -> option Q.
Variable to_datetime : list cell -> option (list Z).
Variable uuid4 : nat -> string.
Variable db_available : bool.
Variable store_rejects : market_data_row -> bool.
Variable fs : FileSystem.

Local Abbreviation run :=
  (process_csv_file py_float to_datetime uuid4 db_available store_rejects fs).

Lemma counted_accepted (cols : list string) (asset_class : string)
  (frame : list frame_row) (t : table) :
  counted py_float store_rejects cols asset_class frame t
  = List.length (filter (accepted py_float store_rejects cols asset_class)
                        frame).
Proof.
  revert t. induction frame as [|row frame IH]; intros t; [reflexivity|].
  cbn [counted filter]. rewrite IH. unfold persist, accepted.
  destruct (insert_values py_float cols asset_class row) as [r|];
    [|reflexivity].
  destruct (store_rejects r); [reflexivity|].
  destruct (key_in r t); reflexivity.
Qed.

Lemma add_fields_length (n : nat) (rws : list (list cell))
  (dates : list Z) :
  (List.length (add_fields uuid4 n rws dates) <= List.length rws)%nat.
Proof.
  revert n dates. induction rws as [|r rws IH]; intros n dates;
    [simpl; lia|].
  destruct dates as [|d dates]; [simpl; lia|].
  rewrite add_fields_cons. simpl. specialize (IH (S n) dates). lia.
Qed.

(** Lines 82-110: the value returned does not depend on what the table
    holds: started on any other table, with the same identifiers to
    draw, the call returns the same count. *)
Theorem return_ignores_table (file_path market : string) (w : world)
  (t : table) :
  fst (fst (run file_path market (mkWorld t (uuids_drawn w))))
  = fst (fst (run file_path market w)).
Proof.
  rewrite !process_csv_file_count.
  destruct (prepared to_datetime db_available fs file_path)
    as [[[cols rws] dates]|]; [|reflexivity].
  rewrite !counted_accepted. reflexivity.
Qed.

Lemma return_at_most_on_disk (file_path market : string) (w : world) :
  (fst (fst (run file_path market w))
   <= match read_csv fs file_path with
      | Some df => List.length (rows df)
      | None => 0
      end)%nat.
Proof.
  rewrite process_csv_file_count. unfold prepared.
  destruct (read_csv fs file_path) as [df|]; [|lia].
  destruct (strip_bom df) as [d|] eqn:Hs; [|lia].
  destruct (negb (has_required (standardize d))); [lia|].
  destruct (match series _ "Date" with
            | Some dates => to_datetime dates | None => None end)
    as [dates|]; [|lia].
  destruct db_available; [|lia].
  eapply Nat.le_trans; [apply counted_le|].
  eapply Nat.le_trans; [apply add_fields_length|].
  cbn [dropna select rows]. rewrite <- (strip_bom_rows df d Hs).
  rewrite <- (standardize_rows d).
  eapply Nat.le_trans; [apply filter_length_le|].
  rewrite length_map. lia.
Qed.

Lemma prepared_no_connection (file_path : string) :
  db_available = false ->
  prepared to_datetime db_available fs file_path = None.
Proof.
  intros Hdb. unfold prepared.
  destruct (read_csv fs file_path) as [df|]; [|reflexivity].
  destruct (strip_bom df) as [d|]; [|reflexivity].
  destruct (negb (has_required (standardize d))); [reflexivity|].
  destruct (match series _ "Date" with
            | Some dates => to_datetime dates | None => None end)
    as [dates|]; [|reflexivity].
  rewrite Hdb. reflexivity.
Qed.

(** Lines 63-110: the value returned is at most the number of rows of
    the file. *)
Theorem return_at_most_rows (file_path market : string) (w : world)
  (df : DataFrame) :
  read_csv fs file_path = Some df ->
  (fst (fst (run file_path market w)) <= List.length (rows df))%nat.
Proof.
  intros Hread.
  pose proof (return_at_most_on_disk file_path market w) as H.
  rewrite Hread in H. exact H.
Qed.

(** Lines 26-70: a file without data rows returns 0 and leaves the
    table as it is, whatever its header. *)
Theorem empty_file_returns_zero (file_path market : string) (w : world)
  (df : DataFrame) :
  read_csv fs file_path = Some df -> rows df = [] ->
  fst (fst (run file_path market w)) = 0%nat
  /\ store (snd (fst (run file_path market w))) = store w.
Proof.
  intros Hread Hrows.
  pose proof (return_at_most_on_disk file_path market w) as Hle.
  rewrite Hread, Hrows in Hle. simpl in Hle. split; [lia|].
  rewrite process_csv_file_store. unfold prepared. rewrite Hread.
  destruct (strip_bom df) as [d|] eqn:Hs; [|reflexivity].
  destruct (negb (has_required (standardize d))); [reflexivity|].
  destruct (match series _ "Date" with
            | Some dates => to_datetime dates | None => None end)
    as [dates|]; [|reflexivity].
  destruct db_available; [|reflexivity].
  cbn [dropna select rows]. rewrite standardize_rows.
  rewrite (strip_bom_rows df d Hs), Hrows. reflexivity.
Qed.

(** Lines 79 and 112-114: when the connection cannot be opened the call
    returns 0 and the table is as before, whatever the file holds. *)
Theorem no_connection_returns_zero (file_path market : string) (w : world) :
  db_available = false ->
  fst (fst (run file_path market w)) = 0%nat
  /\ store (snd (fst (run file_path market w))) = store w.
Proof.
  intros Hdb.
  rewrite process_csv_file_count, process_csv_file_store.
  rewrite (prepared_no_connection file_path Hdb). split; reflexivity.
Qed.

End FileResults.

Lemma return_at_most_rows_witness :
  (fst (fst (process_csv_file Demo.float_of_text Demo.days Demo.uuid true
               Demo.accepts_all Demo.three_bars_fs Demo.bist_file "BIST"
               Demo.empty))
   <= List.length (rows Demo.three_bars))%nat.
Proof.
  exact (return_at_most_rows Demo.float_of_text Demo.days Demo.uuid true
           Demo.accepts_all Demo.three_bars_fs Demo.bist_file "BIST"
           Demo.empty Demo.three_bars eq_refl).
Defined.

Lemma empty_file_returns_zero_witness :
  let fs := Demo.fs_of [(Demo.bist_file,
                         mkDataFrame Demo.variant_a_header [])] in
  let r := process_csv_file Demo.float_of_text Demo.days Demo.uuid true
             Demo.accepts_all fs Demo.bist_file "BIST"
             (mkWorld [Demo.first_bar_record] 1) in
  fst (fst r) = 0%nat /\ store (snd (fst r)) = [Demo.first_bar_record].
Proof.
  exact (empty_file_returns_zero Demo.float_of_text Demo.days Demo.uuid
           true Demo.accepts_all
           (Demo.fs_of [(Demo.bist_file,
                         mkDataFrame Demo.variant_a_header [])])
           Demo.bist_file "BIST" (mkWorld [Demo.first_bar_record] 1)
           (mkDataFrame Demo.variant_a_header []) eq_refl eq_refl).
Defined.

Lemma no_connection_returns_zero_witness :
  let r := process_csv_file Demo.float_of_text Demo.days Demo.uuid false
             Demo.accepts_all Demo.three_bars_fs Demo.bist_file "BIST"
             Demo.empty in
  fst (fst r) = 0%nat /\ store (snd (fst r)) = [].
Proof.
  exact (no_connection_returns_zero Demo.float_of_text Demo.days Demo.uuid
           false Demo.accepts_all Demo.three_bars_fs Demo.bist_file "BIST"
           Demo.empty eq_refl).
Defined.

(** ** What the runs keep *)

Section RunsKeep.

Variable py_float : string -> option Q.
Variable to_datetime : list cell -> option (list Z).
Variable uuid4 : nat -> string.
Variable db_available : bool.
Variable store_rejects : market_data_row -> bool.

Local Abbreviation run_file fs :=
  (process_csv_file py_float to_datetime uuid4 db_available store_rejects fs).
Local Abbreviation run_files fs :=
  (process_files py_float to_datetime uuid4 db_available store_rejects fs).
Local Abbreviation run_markets fs :=
  (process_markets py_float to_datetime uuid4 db_available store_rejects fs).
Local Abbreviation run_main fs :=
  (main py_float to_datetime uuid4 db_available store_rejects fs).
Local Abbreviation runs_of :=
  (import_runs py_float to_datetime uuid4 db_available store_rejects).

(** Lines 90-99: the importer only ever appends: after any succession
    of runs the table is the table it started from, rows and order
    untouched, followed by the rows that were added. No stored row is
    changed or removed. *)
Theorem import_runs_append_only (runs : list FileSystem) (w : world) :
  exists extra, store (runs_of runs w) = store w ++ extra.
Proof.
  apply (import_runs_preserves py_float to_datetime uuid4 db_available
           store_rejects (fun tb => exists extra, tb = store w ++ extra)).
  - intros fs f m w0 [e He].
    destruct (process_csv_file_extends py_float to_datetime uuid4
                db_available store_rejects fs f m w0) as [e' He'].
    exists (e ++ e'). rewrite He', He, app_assoc. reflexivity.
  - exists []. symmetry; apply app_nil_r.
Qed.

(** A property of the whole state that every file import preserves
    is preserved by whole runs. *)
Section PreservedWorld.

Variable P : world -> Prop.
Hypothesis file_preserves :
  forall fs f market w, P w -> P (snd (fst (run_file fs f market w))).

Lemma process_files_preserves_world (fs : FileSystem) (files : list string)
  (market : string) (t : totals) (w : world) :
  P w -> P (snd (fst (run_files fs files market t w))).
Proof.
  revert t w; induction files as [|f files IH]; intros t w Hw; [exact Hw|].
  rewrite process_files_step. apply IH, file_preserves, Hw.
Qed.

Lemma process_markets_preserves_world (fs : FileSystem) (ms : list string)
  (t : totals) (w : world) :
  P w -> P (snd (fst (run_markets fs ms t w))).
Proof.
  revert t w; induction ms as [|m ms IH]; intros t w Hw; [exact Hw|].
  rewrite process_markets_step.
  destruct (negb (path_exists fs (path_join base_path m)));
    [apply IH, Hw|].
  destruct (String.eqb m "BIST"); [|apply IH, Hw].
  cbv zeta. apply IH, process_files_preserves_world, Hw.
Qed.

Lemma import_runs_preserves_world (runs : list FileSystem) (w : world) :
  P w -> P (runs_of runs w).
Proof.
  revert w; induction runs as [|fs runs IH]; intros w Hw; [exact Hw|].
  simpl. apply IH. rewrite main_fst.
  apply process_markets_preserves_world, Hw.
Qed.

End PreservedWorld.

Lemma insert_values_fields (cols : list string) (asset_class : string)
  (row : frame_row) (r : market_data_row) :
  insert_values py_float cols asset_class row = Some r ->
  Id r = row_id row /\ Timeframe r = "DAILY"
  /\ Timestamp r = row_timestamp row /\ AssetClass r = asset_class.
Proof.
  unfold insert_values.
  destruct (to_float py_float (getitem cols (cells row) "Volume"));
    [|discriminate].
  destruct (scalar _); [|discriminate].
  do 4 (destruct (to_float py_float _); [|discriminate]).
  intros H; injection H as <-. repeat split.
Qed.

Lemma ids_below_le (n m : nat) (t : table) :
  (n <= m)%nat -> ids_below uuid4 n t -> ids_below uuid4 m t.
Proof.
  intros Hle H r Hr. destruct (H r Hr) as [k [Hk E]].
  exists k. split; [lia | exact E].
Qed.

Lemma persist_all_ids (cols : list string) (asset_class : string)
  (rws : list (list cell)) (dates : list Z) (n : nat) (t : table) :
  (forall i j, uuid4 i = uuid4 j -> i = j) ->
  ids_below uuid4 n t -> NoDup (map Id t) ->
  let t' := persist_all py_float store_rejects cols asset_class
              (add_fields uuid4 n rws dates) t in
  ids_below uuid4 (n + List.length rws) t' /\ NoDup (map Id t').
Proof.
  intros Hinj. revert dates n t.
  induction rws as [|x rws IH]; intros dates n t Hb Hnd.
  - simpl. split; [eapply ids_below_le; [|exact Hb]; lia | exact Hnd].
  - destruct dates as [|d dates].
    + simpl. split; [eapply ids_below_le; [|exact Hb]; lia | exact Hnd].
    + rewrite add_fields_cons. cbn [persist_all List.length].
      replace (n + S (List.length rws))%nat
        with (S n + List.length rws)%nat by lia.
      destruct (persist_extends py_float store_rejects cols asset_class t
                  (mkFrameRow x (uuid4 n) d))
        as [E | [r [Hv [_ [_ E]]]]]; rewrite E.
      * apply IH; [eapply ids_below_le; [|exact Hb]; lia | exact Hnd].
      * destruct (insert_values_fields _ _ _ _ Hv) as [Hid _].
        simpl in Hid. apply IH.
        -- intros r0 Hr0. apply in_app_or in Hr0 as [Hr0 | [<- | []]].
           ++ destruct (Hb r0 Hr0) as [k [Hk Ek]]. exists k.
              split; [lia | exact Ek].
           ++ exists n. split; [lia | exact Hid].
        -- rewrite map_app. simpl.
           apply NoDup_app; [exact Hnd | repeat constructor; intros [] |].
           intros a Ha [<- | []]. apply in_map_iff in Ha as [r0 [E0 Hr0]].
           destruct (Hb r0 Hr0) as [k [Hk Ek]].
           assert (k = n) by (apply Hinj; congruence). lia.
Qed.

Lemma process_csv_file_ids (fs : FileSystem) (f market : string)
  (w : world) :
  (forall i j, uuid4 i = uuid4 j -> i = j) ->
  ids_distinct uuid4 w ->
  ids_distinct uuid4 (snd (fst (run_file fs f market w))).
Proof.
  intros Hinj [Hb Hnd]. unfold ids_distinct.
  unfold process_csv_file, process_csv_file_try.
  destruct (read_csv fs f) as [df|]; [|split; assumption].
  destruct (strip_bom df) as [d|]; [|split; assumption].
  destruct (negb (has_required (standardize d))); [split; assumption|].
  destruct (match series _ "Date" with
            | Some dates => to_datetime dates | None => None end)
    as [dates|]; [|split; assumption].
  destruct db_available.
  - rewrite insert_rows_persist. cbn [fst snd store uuids_drawn committed
                                      get_db_connection].
    apply persist_all_ids; assumption.
  - cbn [fst snd store uuids_drawn].
    split; [eapply ids_below_le; [|exact Hb]; lia | exact Hnd].
Qed.

(** Line 73: as long as [uuid.uuid4] never repeats itself, no two rows
    of the table share an Id, after any succession of runs, starting
    from a table whose identifiers were drawn from the same source (the
    empty table, for one). *)
Theorem import_runs_ids_distinct (runs : list FileSystem) (w : world) :
  (forall i j, uuid4 i = uuid4 j -> i = j) ->
  ids_distinct uuid4 w ->
  NoDup (map Id (store (runs_of runs w))).
Proof.
  intros Hinj Hw.
  apply (import_runs_preserves_world (ids_distinct uuid4)); [|exact Hw].
  intros fs f market w0. apply process_csv_file_ids, Hinj.
Qed.

(** Lines 74-76: every row a call adds to the table has the timeframe
    DAILY and, as its asset class, the market name in upper case. *)
Theorem added_rows_tagged (fs : FileSystem) (f market : string) (w : world)
  (r : market_data_row) :
  In r (store (snd (fst (run_file fs f market w)))) ->
  ~ In r (store w) ->
  Timeframe r = "DAILY" /\ AssetClass r = upper market.
Proof.
  rewrite process_csv_file_store.
  destruct (prepared to_datetime db_available fs f)
    as [[[cols rws] dates]|]; [|intros H Hn; contradiction].
  intros H Hn.
  apply persist_all_origin in H as [H | [fr [_ Hv]]]; [contradiction|].
  destruct (insert_values_fields _ _ _ _ Hv) as [_ [Htf [_ Hac]]].
  split; assumption.
Qed.

End RunsKeep.

Lemma tally_injective (i j : nat) : Samples.tally i = Samples.tally j -> i = j.
Proof.
  revert j; induction i as [|i IH]; intros [|j] H; simpl in H;
    try discriminate; [reflexivity|].
  injection H as H. f_equal. apply IH, H.
Qed.

Lemma import_runs_ids_distinct_witness :
  NoDup (map Id (store (import_runs Demo.float_of_text Demo.days
                          Samples.tally true Demo.accepts_all
                          [Demo.three_bars_fs; Demo.three_bars_fs]
                          Demo.empty))).
Proof.
  apply (import_runs_ids_distinct Demo.float_of_text Demo.days
           Samples.tally true Demo.accepts_all
           [Demo.three_bars_fs; Demo.three_bars_fs] Demo.empty).
  - exact tally_injective.
  - split; [intros r [] | constructor].
Defined.

Lemma added_rows_tagged_witness :
  Timeframe Demo.first_bar_record = "DAILY"
  /\ AssetClass Demo.first_bar_record = upper "bist".
Proof.
  apply (added_rows_tagged Demo.float_of_text Demo.days Demo.uuid true
           Demo.accepts_all Demo.three_bars_fs Demo.bist_file "bist"
           Demo.empty Demo.first_bar_record).
  - vm_compute. left. reflexivity.
  - simpl. intros H. exact H.
Defined.

(** ** Keys that are already stored *)

(** Lines 90-99: rows whose natural keys are all in the table already
    leave the table exactly as it is, whatever prices and volumes they
    carry: a stored bar is never updated by a later import. *)
Theorem existing_keys_untouched (py_float : string -> option Q)
  (store_rejects : market_data_row -> bool) (cols : list string)
  (asset_class : string) (frame : list frame_row) (t : table) (n : nat) :
  (forall row r, In row frame ->
                 insert_values py_float cols asset_class row = Some r ->
                 key_in r t = true) ->
  snd (fst (insert_rows py_float store_rejects cols asset_class frame
              (get_db_connection t) n))
  = get_db_connection t.
Proof.
  intros H. rewrite insert_rows_persist. cbn [fst snd]. f_equal.
  apply persist_all_absorbs. apply Forall_forall. intros row Hrow.
  unfold settled.
  destruct (insert_values py_float cols asset_class row) as [r|] eqn:Hv;
    [|exact I].
  right. exact (H row r Hrow Hv).
Qed.

Lemma existing_keys_untouched_witness :
  snd (fst (insert_rows Demo.float_of_text Demo.accepts_all
              Demo.canonical_header "BIST" [Samples.first_bar_revised]
              (get_db_connection [Demo.first_bar_record]) 0))
  = get_db_connection [Demo.first_bar_record].
Proof.
  apply (existing_keys_untouched Demo.float_of_text Demo.accepts_all
           Demo.canonical_header "BIST" [Samples.first_bar_revised]
           [Demo.first_bar_record] 0%nat).
  intros row r [<- | []] Hv. vm_compute in Hv. injection Hv as <-.
  reflexivity.
Defined.

(** ** The byte-order mark *)

(** Lines 28-30: a byte-order mark before the first column name changes
    nothing: the file is processed exactly as the same file without
    it. *)
Theorem bom_prefix_transparent
  (py_float : string -> option Q)
  (to_datetime : list cell -> option (list Z)) (uuid4 : nat -> string)
  (db_available : bool) (store_rejects : market_data_row -> bool)
  (fs : FileSystem) (file_path market : string) (w : world)
  (c0 : string) (cs : list string) (rws : list (list cell)) :
  read_csv fs file_path = Some (mkDataFrame (String.append BOM c0 :: cs) rws) ->
  replace_bom c0 = c0 ->
  process_csv_file py_float to_datetime uuid4 db_available store_rejects
    fs file_path market w
  = process_csv_file py_float to_datetime uuid4 db_available store_rejects
      (with_file fs file_path (mkDataFrame (c0 :: cs) rws))
      file_path market w.
Proof.
  intros Hread Hclean. unfold process_csv_file. f_equal.
  unfold process_csv_file_try. rewrite Hread.
  cbn [read_csv with_file]. rewrite String.eqb_refl.
  assert (E : strip_bom (mkDataFrame (String.append BOM c0 :: cs) rws)
              = strip_bom (mkDataFrame (c0 :: cs) rws)).
  { unfold strip_bom. cbn [columns rows].
    assert (Hstart : startswith_bom (String.append BOM c0) = true)
      by (unfold startswith_bom, BOM; simpl; destruct c0; reflexivity).
    rewrite Hstart.
    change (replace_bom (String.append BOM c0)) with (replace_bom c0).
    rewrite Hclean. destruct (startswith_bom c0); reflexivity. }
  rewrite E. reflexivity.
Qed.

Lemma bom_prefix_transparent_witness :
  let fs := Demo.fs_of [(Demo.bist_file, Samples.three_bars_bom)] in
  process_csv_file Demo.float_of_text Demo.days Demo.uuid true
    Demo.accepts_all fs Demo.bist_file "BIST" Demo.empty
  = process_csv_file Demo.float_of_text Demo.days Demo.uuid true
      Demo.accepts_all
      (with_file fs Demo.bist_file
         (mkDataFrame ("HisseKodu" :: tl Demo.variant_a_header)
                      (rows Demo.three_bars)))
      Demo.bist_file "BIST" Demo.empty.
Proof.
  exact (bom_prefix_transparent Demo.float_of_text Demo.days Demo.uuid true
           Demo.accepts_all
           (Demo.fs_of [(Demo.bist_file, Samples.three_bars_bom)])
           Demo.bist_file "BIST" Demo.empty "HisseKodu"
           (tl Demo.variant_a_header) (rows Demo.three_bars)
           eq_refl eq_refl).
Defined.

(** ** How far the rescaling reaches *)

Lemma Qdiv_million_le (v : Q) :
  v / 1000000 <= 99999999 <-> v <= 99999999000000.
Proof.
  destruct v as [a b]. unfold Qle, Qdiv, Qmult, Qinv. cbn [Qnum Qden].
  rewrite ?Pos2Z.inj_mul. lia.
Qed.

(** Lines 86-88: the stored volume fits under the ceiling of
    99,999,999 exactly when the raw volume is at most
    99,999,999,000,000; a larger raw volume is still above the ceiling
    after the division. *)
Theorem scale_volume_fits (v : Q) :
  scale_volume v <= 99999999 <-> v <= 99999999000000.
Proof.
  unfold scale_volume. destruct (Qlt_le_dec 99999999 v) as [Hlt | Hle].
  - apply Qdiv_million_le.
  - split; intros _; [|exact Hle].
    eapply Qle_trans; [exact Hle|]. unfold Qle. cbn [Qnum Qden]. lia.
Qed.

(** Lines 86-88: the rescaling loses the magnitude: a raw volume above
    the ceiling (and within its reach) is stored as the very number
    stored for a raw volume a million times smaller. *)
Theorem scale_volume_collides (v : Q) :
  99999999 < v -> v <= 99999999000000 ->
  scale_volume v = scale_volume (v / 1000000).
Proof.
  intros Hlt Hle. rewrite (scale_volume_large v Hlt).
  symmetry. apply scale_volume_small. apply Qdiv_million_le, Hle.
Qed.

Lemma scale_volume_collides_witness :
  scale_volume 500000000 = scale_volume (500000000 / 1000000).
Proof.
  apply (scale_volume_collides 500000000); reflexivity || discriminate.
Defined.

(** ** The totals of a run *)

Section Totals.

Variable py_float : string -> option Q.
Variable to_datetime : list cell -> option (list Z).
Variable uuid4 : nat -> string.
Variable db_available : bool.
Variable store_rejects : market_data_row -> bool.
Variable fs : FileSystem.

Local Abbreviation run_file :=
  (process_csv_file py_float to_datetime uuid4 db_available store_rejects fs).
Local Abbreviation run_files :=
  (process_files py_float to_datetime uuid4 db_available store_rejects fs).
Local Abbreviation run_markets :=
  (process_markets py_float to_datetime uuid4 db_available store_rejects fs).
Local Abbreviation run_main :=
  (main py_float to_datetime uuid4 db_available store_rejects fs).

Lemma process_files_total_records (files : list string) (market : string)
  (t : totals) (w : world) :
  (total_records (fst (fst (run_files files market t w)))
   <= total_records t + rows_on_disk fs files)%nat.
Proof.
  revert t w; induction files as [|f files IH]; intros t w; [simpl; lia|].
  rewrite process_files_step. eapply Nat.le_trans; [apply IH|].
  cbn [total_records rows_on_disk].
  pose proof (return_at_most_on_disk py_float to_datetime uuid4
                db_available store_rejects fs f market w). lia.
Qed.

Lemma process_files_no_connection (files : list string) (market : string)
  (t : totals) (w : world) :
  db_available = false ->
  total_records (fst (fst (run_files files market t w))) = total_records t
  /\ store (snd (fst (run_files files market t w))) = store w.
Proof.
  intros Hdb. revert t w; induction files as [|f files IH]; intros t w;
    [split; reflexivity|].
  rewrite process_files_step.
  assert (H0 : fst (fst (run_file f market w)) = 0%nat)
    by (rewrite process_csv_file_count,
          (prepared_no_connection to_datetime db_available fs f Hdb);
        reflexivity).
  assert (Hs : store (snd (fst (run_file f market w))) = store w)
    by (rewrite process_csv_file_store,
          (prepared_no_connection to_datetime db_available fs f Hdb);
        reflexivity).
  destruct (IH (mkTotals (total_files t + 1)
                  (total_records t + fst (fst (run_file f market w))))
               (snd (fst (run_file f market w)))) as [Hr Hst].
  rewrite Hr, Hst, Hs, H0. simpl. split; [lia | reflexivity].
Qed.

Lemma main_is_imported (w : world) :
  fst (run_main w) = fst (run_files (imported fs) "BIST" (mkTotals 0 0) w).
Proof.
  rewrite main_fst. unfold markets, imported.
  rewrite process_markets_skip by reflexivity.
  rewrite process_markets_step. simpl String.eqb.
  assert (Hrest : forall t0 w0,
            fst (run_markets ["NASDAQ"; "NYSE"] t0 w0) = (t0, w0)).
  { intros t0 w0. rewrite 2 process_markets_skip by reflexivity.
    reflexivity. }
  destruct (path_exists fs (path_join base_path "BIST")); simpl negb;
    cbv iota zeta; rewrite Hrest; [|reflexivity].
  destruct (process_files _ _ _ _ _ fs _ "BIST" _ w) as [[t1 w1] out1].
  reflexivity.
Qed.

(** Lines 137-148: the files total counts every file handed to
    [process_csv_file], those that were given up included, and the
    records total never exceeds the number of data rows those files
    hold. *)
Theorem main_totals (w : world) :
  total_files (fst (fst (run_main w))) = List.length (imported fs)
  /\ (total_records (fst (fst (run_main w)))
      <= rows_on_disk fs (imported fs))%nat.
Proof.
  rewrite main_is_imported. split.
  - rewrite process_files_total_files. reflexivity.
  - eapply Nat.le_trans; [apply process_files_total_records|].
    simpl. lia.
Qed.

(** Lines 79, 112-114 and 137-148: when the connection cannot be opened,
    the run still counts its files, imports no record and leaves the
    table as it was. *)
Theorem main_without_connection (w : world) :
  db_available = false ->
  total_files (fst (fst (run_main w))) = List.length (imported fs)
  /\ total_records (fst (fst (run_main w))) = 0%nat
  /\ store (snd (fst (run_main w))) = store w.
Proof.
  intros Hdb. rewrite main_is_imported. split; [|split].
  - rewrite process_files_total_files. reflexivity.
  - apply (process_files_no_connection (imported fs) "BIST"
             (mkTotals 0 0) w Hdb).
  - apply (process_files_no_connection (imported fs) "BIST"
             (mkTotals 0 0) w Hdb).
Qed.

End Totals.

Lemma main_without_connection_witness :
  total_files (fst (fst (main Demo.float_of_text Demo.days Demo.uuid false
                           Demo.accepts_all Demo.three_bars_fs Demo.empty)))
  = List.length (imported Demo.three_bars_fs)
  /\ total_records (fst (fst (main Demo.float_of_text Demo.days Demo.uuid
                                false Demo.accepts_all Demo.three_bars_fs
                                Demo.empty))) = 0%nat
  /\ store (snd (fst (main Demo.float_of_text Demo.days Demo.uuid false
                        Demo.accepts_all Demo.three_bars_fs Demo.empty)))
     = store Demo.empty.
Proof.
  exact (main_without_connection Demo.float_of_text Demo.days Demo.uuid
           false Demo.accepts_all Demo.three_bars_fs Demo.empty eq_refl).
Defined.

(** ** Where the stored values come from *)

Lemma getitem_renamed (f : string -> string) (cols : list string)
  (row : list cell) (src tgt : string) (v : cell) :
  f src = tgt -> In src cols ->
  getitem (map f cols) row tgt = [v] -> getitem cols row src = [v].
Proof.
  intros Hf Hin Hv. rewrite getitem_map_pick in Hv. rewrite getitem_pick.
  apply (pick_single (fun c => String.eqb c src)
           (fun c => String.eqb (f c) tgt) cols row v src);
    [| exact Hin | apply String.eqb_refl | exact Hv].
  intros x Hx. apply String.eqb_eq in Hx; subst x.
  rewrite Hf. apply String.eqb_refl.
Qed.

Lemma to_float_renamed (py_float : string -> option Q)
  (f : string -> string) (cols : list string) (row : list cell)
  (src tgt : string) (q : Q) :
  f src = tgt -> In src cols ->
  to_float py_float (getitem (map f cols) row tgt) = Some q ->
  to_float py_float (getitem cols row src) = Some q.
Proof.
  intros Hf Hin H. destruct (to_float_single py_float _ q H) as [v Hv].
  rewrite (getitem_renamed f cols row src tgt v Hf Hin Hv).
  rewrite Hv in H. exact H.
Qed.

Lemma scalar_renamed (f : string -> string) (cols : list string)
  (row : list cell) (src tgt : string) (c : cell) :
  f src = tgt -> In src cols ->
  scalar (getitem (map f cols) row tgt) = Some c ->
  scalar (getitem cols row src) = Some c.
Proof.
  intros Hf Hin H.
  assert (Hv : getitem (map f cols) row tgt = [c]).
  { destruct (getitem (map f cols) row tgt) as [|x [|y l]];
      try discriminate. injection H as ->. reflexivity. }
  rewrite (getitem_renamed f cols row src tgt c Hf Hin Hv). reflexivity.
Qed.

Lemma insert_values_sources (py_float : string -> option Q)
  (cols : list string) (asset_class : string) (row : list cell)
  (fr : frame_row) (r : market_data_row) :
  cells fr = select_row required_cols cols row ->
  insert_values py_float (select_header required_cols cols) asset_class fr
  = Some r ->
  scalar (getitem cols row "Symbol") = Some (Symbol r)
  /\ to_float py_float (getitem cols row "Open") = Some (Open r)
  /\ to_float py_float (getitem cols row "High") = Some (High r)
  /\ to_float py_float (getitem cols row "Low") = Some (Low r)
  /\ exists raw, to_float py_float (getitem cols row "Volume") = Some raw
                 /\ Volume r = scale_volume raw.
Proof.
  intros Hcells. unfold insert_values. rewrite Hcells.
  rewrite !(getitem_select required_cols cols row)
    by (first [apply required_cols_NoDup
              | unfold required_cols; simpl; tauto]).
  destruct (to_float py_float (getitem cols row "Volume")) as [raw|];
    [|discriminate].
  destruct (scalar (getitem cols row "Symbol")) as [sym|]; [|discriminate].
  destruct (to_float py_float (getitem cols row "Open")) as [o|];
    [|discriminate].
  destruct (to_float py_float (getitem cols row "High")) as [h|];
    [|discriminate].
  destruct (to_float py_float (getitem cols row "Low")) as [l|];
    [|discriminate].
  destruct (to_float py_float (getitem cols row "Close")) as [cl|];
    [|discriminate].
  intros H; injection H as <-. cbn.
  repeat split. exists raw. split; reflexivity.
Qed.

(** Lines 33-55 and 86-98: for a file with either symbol column, every
    row an import adds to the table was built from one row of the file:
    its Symbol is that row's symbol column (HisseKodu when the header
    has it, HGDG_HS_KODU otherwise), its Open, High and Low are the
    row's AcilisFiyati, EnYuksek and EnDusuk, and its Volume is the
    rescaled Hacim, for each of these columns the header has. *)
Theorem stored_values_from_source
  (py_float : string -> option Q)
  (to_datetime : list cell -> option (list Z)) (uuid4 : nat -> string)
  (db_available : bool) (store_rejects : market_data_row -> bool)
  (fs : FileSystem) (file_path market : string) (w : world)
  (df d : DataFrame) (r : market_data_row) :
  read_csv fs file_path = Some df ->
  strip_bom df = Some d ->
  contains "HisseKodu" (columns d) || contains "HGDG_HS_KODU" (columns d)
  = true ->
  In r (store (snd (fst (process_csv_file py_float to_datetime uuid4
                           db_available store_rejects fs file_path market
                           w)))) ->
  ~ In r (store w) ->
  exists row,
    In row (rows df)
    /\ scalar (getitem (columns d) row
                 (if contains "HisseKodu" (columns d)
                  then "HisseKodu" else "HGDG_HS_KODU"))
       = Some (Symbol r)
    /\ (contains "AcilisFiyati" (columns d) = true ->
        to_float py_float (getitem (columns d) row "AcilisFiyati")
        = Some (Open r))
    /\ (contains "EnYuksek" (columns d) = true ->
        to_float py_float (getitem (columns d) row "EnYuksek")
        = Some (High r))
    /\ (contains "EnDusuk" (columns d) = true ->
        to_float py_float (getitem (columns d) row "EnDusuk")
        = Some (Low r))
    /\ (contains "Hacim" (columns d) = true ->
        exists raw,
          to_float py_float (getitem (columns d) row "Hacim") = Some raw
          /\ Volume r = scale_volume raw).
Proof.
  intros Hread Hs Hsym Hin Hnew.
  destruct (stored_origin _ _ _ _ _ _ _ _ _ _ _ _ Hread Hs Hin)
    as [Hold | [row [fr [Hrow [Hcells Hv]]]]]; [contradiction|].
  exists row. split; [exact Hrow|].
  destruct (insert_values_sources _ _ _ _ _ _ Hcells Hv)
    as [Hsy [Ho [Hh [Hl [raw [Hraw Hvol]]]]]].
  unfold standardize in Hsy, Ho, Hh, Hl, Hraw.
  destruct (contains "HisseKodu" (columns d)) eqn:Ha.
  - destruct (contains "DuzeltilmisKapanis" (columns d));
      cbn [rename columns] in Hsy, Ho, Hh, Hl, Hraw;
      (split; [eapply scalar_renamed;
               [| apply contains_In; exact Ha | exact Hsy]; reflexivity|]);
      (split; [intros Hc; eapply to_float_renamed;
               [| apply contains_In; exact Hc | exact Ho]; reflexivity|]);
      (split; [intros Hc; eapply to_float_renamed;
               [| apply contains_In; exact Hc | exact Hh]; reflexivity|]);
      (split; [intros Hc; eapply to_float_renamed;
               [| apply contains_In; exact Hc | exact Hl]; reflexivity|]);
      intros Hc; exists raw; (split; [|exact Hvol]);
      (eapply to_float_renamed;
       [| apply contains_In; exact Hc | exact Hraw]); reflexivity.
  - simpl in Hsym. rewrite Hsym in Hsy, Ho, Hh, Hl, Hraw.
    cbn [rename columns] in Hsy, Ho, Hh, Hl, Hraw.
    (split; [eapply scalar_renamed;
             [| apply contains_In; exact Hsym | exact Hsy]; reflexivity|]).
    (split; [intros Hc; eapply to_float_renamed;
             [| apply contains_In; exact Hc | exact Ho]; reflexivity|]).
    (split; [intros Hc; eapply to_float_renamed;
             [| apply contains_In; exact Hc | exact Hh]; reflexivity|]).
    (split; [intros Hc; eapply to_float_renamed;
             [| apply contains_In; exact Hc | exact Hl]; reflexivity|]).
    intros Hc; exists raw; (split; [|exact Hvol]).
    eapply to_float_renamed;
      [| apply contains_In; exact Hc | exact Hraw]; reflexivity.
Qed.

Lemma stored_values_from_source_witness :
  exists row,
    In row (rows Demo.three_bars)
    /\ scalar (getitem (columns Demo.three_bars) row
                 (if contains "HisseKodu" (columns Demo.three_bars)
                  then "HisseKodu" else "HGDG_HS_KODU"))
       = Some (Symbol Demo.first_bar_record)
    /\ (contains "AcilisFiyati" (columns Demo.three_bars) = true ->
        to_float Demo.float_of_text
          (getitem (columns Demo.three_bars) row "AcilisFiyati")
        = Some (Open Demo.first_bar_record))
    /\ (contains "EnYuksek" (columns Demo.three_bars) = true ->
        to_float Demo.float_of_text
          (getitem (columns Demo.three_bars) row "EnYuksek")
        = Some (High Demo.first_bar_record))
    /\ (contains "EnDusuk" (columns Demo.three_bars) = true ->
        to_float Demo.float_of_text
          (getitem (columns Demo.three_bars) row "EnDusuk")
        = Some (Low Demo.first_bar_record))
    /\ (contains "Hacim" (columns Demo.three_bars) = true ->
        exists raw,
          to_float Demo.float_of_text
            (getitem (columns Demo.three_bars) row "Hacim") = Some raw
          /\ Volume Demo.first_bar_record = scale_volume raw).
Proof.
  apply (stored_values_from_source Demo.float_of_text Demo.days Demo.uuid
           true Demo.accepts_all Demo.three_bars_fs Demo.bist_file "BIST"
           Demo.empty Demo.three_bars Demo.three_bars
           Demo.first_bar_record).
  - reflexivity.
  - reflexivity.
  - reflexivity.
  - vm_compute. left. reflexivity.
  - simpl. intros H. exact H.
Defined.

(** ** What a run reports does not depend on the state *)

Section Reports.

Variable py_float : string -> option Q.
Variable to_datetime : list cell -> option (list Z).
Variable uuid4 : nat -> string.
Variable db_available : bool.
Variable store_rejects : market_data_row -> bool.
Variable fs : FileSystem.

Hypothesis rejects_whatever_id :
  forall id r, store_rejects (with_id id r) = store_rejects r.

Local Abbreviation run_file :=
  (process_csv_file py_float to_datetime uuid4 db_available store_rejects fs).
Local Abbreviation run_files :=
  (process_files py_float to_datetime uuid4 db_available store_rejects fs).
Local Abbreviation run_main :=
  (main py_float to_datetime uuid4 db_available store_rejects fs).
Local Abbreviation is_accepted :=
  (accepted py_float store_rejects).

Lemma accepted_id (cols : list string) (asset_class : string)
  (cs : list cell) (id id' : string) (ts : Z) :
  is_accepted cols asset_class (mkFrameRow cs id' ts)
  = is_accepted cols asset_class (mkFrameRow cs id ts).
Proof.
  unfold accepted.
  rewrite (insert_values_id py_float cols asset_class cs id id').
  destruct (insert_values py_float cols asset_class (mkFrameRow cs id ts))
    as [r|]; simpl; [|reflexivity].
  rewrite rejects_whatever_id. reflexivity.
Qed.

Lemma accepted_count_shift (cols : list string) (asset_class : string)
  (rws : list (list cell)) (dates : list Z) (n m : nat) :
  List.length (filter (is_accepted cols asset_class)
                      (add_fields uuid4 n rws dates))
  = List.length (filter (is_accepted cols asset_class)
                        (add_fields uuid4 m rws dates)).
Proof.
  revert dates n m. induction rws as [|x rws IH]; intros dates n m;
    [reflexivity|].
  destruct dates as [|d dates]; [reflexivity|].
  rewrite !add_fields_cons. cbn [filter].
  rewrite (accepted_id cols asset_class x (uuid4 m) (uuid4 n) d).
  destruct (is_accepted cols asset_class (mkFrameRow x (uuid4 m) d));
    cbn [List.length]; rewrite (IH dates (S n) (S m)); reflexivity.
Qed.

Lemma return_ignores_state (f market : string) (w w' : world) :
  fst (fst (run_file f market w')) = fst (fst (run_file f market w)).
Proof.
  rewrite !process_csv_file_count.
  destruct (prepared to_datetime db_available fs f)
    as [[[cols rws] dates]|]; [|reflexivity].
  rewrite !counted_accepted. apply accepted_count_shift.
Qed.

Lemma process_files_totals_ignore_state (files : list string)
  (market : string) (t : totals) (w w' : world) :
  fst (fst (run_files files market t w'))
  = fst (fst (run_files files market t w)).
Proof.
  revert t w w'; induction files as [|f files IH]; intros t w w';
    [reflexivity|].
  rewrite !process_files_step.
  rewrite (return_ignores_state f market w w'). apply IH.
Qed.

(** Lines 100 and 137-148: provided the store's refusal of a row does
    not depend on the identifier drawn for it, the totals a run ends
    with are the same whatever the table held when it started: a run
    over data that is all stored already reports what the first import
    of that data reported. *)
Theorem main_totals_ignore_state (w w' : world) :
  fst (fst (run_main w')) = fst (fst (run_main w)).
Proof.
  rewrite !main_is_imported. apply process_files_totals_ignore_state.
Qed.

End Reports.

Lemma main_totals_ignore_state_witness :
  fst (fst (main Demo.float_of_text Demo.days Demo.uuid true
              Demo.rejects_large Demo.three_bars_fs
              (mkWorld [Demo.first_bar_record] 1)))
  = fst (fst (main Demo.float_of_text Demo.days Demo.uuid true
                Demo.rejects_large Demo.three_bars_fs Demo.empty)).
Proof.
  exact (main_totals_ignore_state Demo.float_of_text Demo.days Demo.uuid
           true Demo.rejects_large Demo.three_bars_fs
           (fun id r => eq_refl) Demo.empty
           (mkWorld [Demo.first_bar_record] 1)).
Defined.

(** ** Rows that fail, and headers with a name twice *)

Section Failures.

Variable py_float : string -> option Q.
Variable store_rejects : market_data_row -> bool.
Variable cols : list string.
Variable asset_class : string.

Local Abbreviation loop := (insert_rows py_float store_rejects cols asset_class).
Local Abbreviation is_accepted :=
  (accepted py_float store_rejects cols asset_class).

Lemma persist_not_accepted (t : table) (row : frame_row) :
  is_accepted row = false ->
  persist py_float store_rejects cols asset_class t row = (t, false).
Proof.
  unfold accepted, persist.
  destruct (insert_values py_float cols asset_class row) as [r|];
    [|reflexivity].
  destruct (store_rejects r); [reflexivity | discriminate].
Qed.

Lemma persist_all_accepted (frame : list frame_row) (t : table) :
  persist_all py_float store_rejects cols asset_class frame t
  = persist_all py_float store_rejects cols asset_class
      (filter is_accepted frame) t.
Proof.
  revert t. induction frame as [|row frame IH]; intros t; [reflexivity|].
  cbn [persist_all filter]. destruct (is_accepted row) eqn:Ha.
  - cbn [persist_all]. apply IH.
  - rewrite (persist_not_accepted t row Ha). apply IH.
Qed.

(** Lines 101-104: the rows whose insert fails leave no trace: the loop
    ends with the table and the count it would end with had those rows
    not been in the file. *)
Theorem failed_rows_leave_no_trace (frame : list frame_row) (t : table)
  (n : nat) :
  fst (loop frame (get_db_connection t) n)
  = fst (loop (filter is_accepted frame) (get_db_connection t) n).
Proof.
  rewrite !insert_rows_persist. cbn [fst].
  rewrite !counted_accepted, <- persist_all_accepted.
  f_equal. f_equal. f_equal.
  induction frame as [|row frame IH]; [reflexivity|].
  cbn [filter]. destruct (is_accepted row) eqn:Ha; cbn [filter];
    rewrite ?Ha; cbn [List.length]; rewrite <- ?IH; reflexivity.
Qed.

Lemma to_float_many (v : list cell) :
  (2 <= List.length v)%nat -> to_float py_float v = None.
Proof.
  destruct v as [|a [|b v]]; simpl; try lia. destruct a; reflexivity.
Qed.

Lemma scalar_many (v : list cell) :
  (2 <= List.length v)%nat -> scalar v = None.
Proof. destruct v as [|a [|b v]]; simpl; try lia. reflexivity. Qed.

Lemma insert_values_duplicated (name : string) (row : frame_row) :
  In name ["Symbol"; "Open"; "High"; "Low"; "Close"; "Volume"] ->
  (2 <= List.length (filter (fun c => String.eqb c name) cols))%nat ->
  insert_values py_float cols asset_class row = None.
Proof.
  intros Hin Hdup.
  rewrite <- (getitem_length_filter cols (cells row) name) in Hdup.
  unfold insert_values.
  destruct Hin as [<- | [<- | [<- | [<- | [<- | [<- | []]]]]]];
    first [rewrite (to_float_many _ Hdup) | rewrite (scalar_many _ Hdup)];
    repeat match goal with
           | |- context [match ?x with Some _ => _ | None => _ end] =>
               destruct x
           end; reflexivity.
Qed.

End Failures.

Lemma filter_none {A : Type} (f : A -> bool) (l : list A) :
  (forall x, f x = false) -> filter f l = [].
Proof.
  intros H. induction l as [|x l IH]; simpl; [reflexivity|].
  rewrite H. exact IH.
Qed.

Lemma filter_name_twice (k m : string) (l : list string) :
  filter (fun c => String.eqb c m) (filter (fun c => String.eqb c k) l)
  = if String.eqb k m then filter (fun c => String.eqb c m) l else [].
Proof.
  induction l as [|c l IHl]; simpl; [destruct (String.eqb k m); reflexivity|].
  destruct (String.eqb c k) eqn:Ek; simpl.
  - apply String.eqb_eq in Ek; subst c. rewrite IHl.
    destruct (String.eqb k m); reflexivity.
  - rewrite IHl. destruct (String.eqb k m) eqn:Ekm; [|reflexivity].
    apply String.eqb_eq in Ekm; subst m. rewrite Ek. reflexivity.
Qed.

Lemma filter_select_header (names cols : list string) (m : string) :
  NoDup names -> In m names ->
  filter (fun c => String.eqb c m) (select_header names cols)
  = filter (fun c => String.eqb c m) cols.
Proof.
  unfold select_header.
  induction names as [|k names IH]; intros Hnd Hin; [destruct Hin|].
  simpl. rewrite filter_app. inversion Hnd as [|? ? Hnotin Hnd']; subst.
  rewrite filter_name_twice. destruct (String.eqb k m) eqn:Ekm.
  - apply String.eqb_eq in Ekm; subst m.
    assert (Hnil : forall l, ~ In k l ->
              filter (fun c => String.eqb c k)
                (flat_map (fun n => filter (fun c => String.eqb c n) cols) l)
              = []).
    { induction l as [|x l IHl]; intros Hx; [reflexivity|]. simpl.
      rewrite filter_app, filter_name_twice.
      destruct (String.eqb x k) eqn:Exk.
      - apply String.eqb_eq in Exk; subst x.
        exfalso; apply Hx; left; reflexivity.
      - simpl. apply IHl. intros H; apply Hx; right; exact H. }
    rewrite Hnil by assumption. apply app_nil_r.
  - simpl. apply IH; [assumption|].
    destruct Hin as [-> | Hin]; [|assumption].
    rewrite String.eqb_refl in Ekm; discriminate.
Qed.

(** Lines 36-55 and 63-104: a file whose header, once renamed, carries
    one of the seven required names on two columns or more imports
    nothing: the call returns 0 and the table is as before. (A header
    with both DuzeltilmisKapanis and a column already called Close is
    such a file.) *)
Theorem duplicated_name_imports_nothing
  (py_float : string -> option Q)
  (to_datetime : list cell -> option (list Z)) (uuid4 : nat -> string)
  (db_available : bool) (store_rejects : market_data_row -> bool)
  (fs : FileSystem) (file_path market : string) (w : world)
  (df : DataFrame) (name : string) :
  read_csv fs file_path = Some df ->
  In name required_cols ->
  (2 <= List.length (filter (fun c => String.eqb c name)
                            (canonical_columns df)))%nat ->
  let r := process_csv_file py_float to_datetime uuid4 db_available
             store_rejects fs file_path market w in
  fst (fst r) = 0%nat /\ store (snd (fst r)) = store w.
Proof.
  intros Hread Hin Hdup r. subst r.
  rewrite process_csv_file_count, process_csv_file_store.
  unfold prepared. rewrite Hread. unfold canonical_columns in Hdup.
  destruct (strip_bom df) as [d|]; [|split; reflexivity].
  destruct (negb (has_required (standardize d))); [split; reflexivity|].
  rewrite <- (filter_select_header required_cols (columns (standardize d))
                name required_cols_NoDup Hin) in Hdup.
  destruct Hin as [<- | [<- | Hin]].
  - (* Symbol *)
    destruct (match series _ "Date" with
              | Some dates => to_datetime dates | None => None end)
      as [dates|]; [|split; reflexivity].
    destruct db_available; [|split; reflexivity].
    cbn [dropna select columns].
    assert (Hnone : forall row,
              insert_values py_float
                (select_header required_cols (columns (standardize d)))
                (upper market) row = None)
      by (intros row; apply (insert_values_duplicated py_float _ _ "Symbol");
          [simpl; tauto | exact Hdup]).
    split.
    + rewrite counted_accepted.
      rewrite filter_none; [reflexivity|].
      intros x. unfold accepted. rewrite Hnone. reflexivity.
    + apply persist_all_absorbs. apply Forall_forall. intros x _.
      unfold settled. rewrite Hnone. exact I.
  - (* Date *)
    unfold series. cbn [dropna select columns].
    rewrite (filter_ext (String.eqb "Date")
               (fun c => String.eqb c "Date"))
      by (intros a; apply String.eqb_sym).
    destruct (Nat.eqb_spec
                (List.length (filter (fun c => String.eqb c "Date")
                   (select_header required_cols (columns (standardize d)))))
                1) as [E | _]; [lia|].
    split; reflexivity.
  - destruct (match series _ "Date" with
              | Some dates => to_datetime dates | None => None end)
      as [dates|]; [|split; reflexivity].
    destruct db_available; [|split; reflexivity].
    cbn [dropna select columns].
    assert (Hnone : forall row,
              insert_values py_float
                (select_header required_cols (columns (standardize d)))
                (upper market) row = None)
      by (intros row; apply (insert_values_duplicated py_float _ _ name);
          [simpl in Hin |- *; tauto | exact Hdup]).
    split.
    + rewrite counted_accepted.
      rewrite filter_none; [reflexivity|].
      intros x. unfold accepted. rewrite Hnone. reflexivity.
    + apply persist_all_absorbs. apply Forall_forall. intros x _.
      unfold settled. rewrite Hnone. exact I.
Qed.

Lemma duplicated_name_imports_nothing_witness :
  let r := process_csv_file Demo.float_of_text Demo.days Demo.uuid true
             Demo.accepts_all
             (Demo.fs_of [(Demo.bist_file, Samples.two_closes)])
             Demo.bist_file "BIST" Demo.empty in
  fst (fst r) = 0%nat /\ store (snd (fst r)) = store Demo.empty.
Proof.
  apply (duplicated_name_imports_nothing Demo.float_of_text Demo.days
           Demo.uuid true Demo.accepts_all
           (Demo.fs_of [(Demo.bist_file, Samples.two_closes)])
           Demo.bist_file "BIST" Demo.empty Samples.two_closes "Close").
  - reflexivity.
  - simpl. tauto.
  - vm_compute. lia.
Defined.
